(** * xESMF backend: shape validation, method selection and operator lifecycle

  A shallow embedding of [xesmf/backend.py], the procedural wrapper that
  builds ESMF grids, fields and regridding operators out of numpy arrays.

  The backend is written against two libraries, numpy and ESMPy.  The parts
  of their interfaces that the backend touches are modelled in the modules
  [np] and [ESMF] below; the six functions of the backend itself follow,
  statement by statement, in the section [Backend].

  Python objects have identity and are mutated in place, and a raised
  exception does not roll back earlier writes.  The embedding therefore
  threads an explicit store through every call and keeps the store when an
  exception is raised.

  Conventions.  Assertions are enabled, and [warnings.warn] runs under the
  default filters, where it records the warning and returns.  What ESMF
  computes is a parameter (the record [Engine]); its constructors are total.
  Array elements are of an arbitrary inhabited type, [float64] in numpy:
  the backend only ever copies them. *)

From stdpp Require Import gmap strings list fin_maps.

Open Scope string_scope.
Open Scope nat_scope.

(** ** numpy arrays *)

Module np.

(** An array: its shape, the [F_CONTIGUOUS] entry of its [flags], and its
    elements listed in logical (row-major index) order. *)
Record ndarray (val : Type) : Type := mk_ndarray {
  shape : list nat;
  f_contiguous : bool;
  data : list val
}.
Arguments mk_ndarray {val} _ _ _.
Arguments shape {val} _.
Arguments f_contiguous {val} _.
Arguments data {val} _.

Definition ndim {val} (a : ndarray val) : nat := length (shape a).

(** Number of elements of an array of a given shape. *)
Fixpoint size (sh : list nat) : nat :=
  match sh with
  | [] => 1
  | n :: sh' => n * size sh'
  end.

(** All multi-indices of a shape, in row-major order. *)
Fixpoint indices (sh : list nat) : list (list nat) :=
  match sh with
  | [] => [[]]
  | n :: sh' => i ← seq 0 n; (cons i) <$> indices sh'
  end.

(** Position of a multi-index in the element list. *)
Fixpoint offset (sh idx : list nat) : nat :=
  match sh, idx with
  | _ :: sh', i :: idx' => i * size sh' + offset sh' idx'
  | _, _ => 0
  end.

(** [np.array_equal] on two integer vectors: [False] when the lengths
    differ, otherwise elementwise comparison. *)
Definition array_equal (a b : list nat) : bool := bool_decide (a = b).

(** Assignment [dst[...] = src] broadcasts [src] to the shape of [dst].
    Unit dimensions in excess on the left of [src] are dropped first. *)
Fixpoint strip_ones (excess : nat) (sh : list nat) : list nat :=
  match excess, sh with
  | S k, 1 :: sh' => strip_ones k sh'
  | _, _ => sh
  end.

Definition align (src dst : list nat) : list nat :=
  strip_ones (length src - length dst) src.

Definition dim_ok (sd : nat * nat) : bool :=
  (sd.1 =? sd.2) || (sd.1 =? 1).

Definition broadcastable (src dst : list nat) : bool :=
  let src' := align src dst in
  (length src' <=? length dst)
  && forallb dim_ok (zip src' (drop (length dst - length src') dst)).

Definition source_index (src' dst idx : list nat) : list nat :=
  zip_with (fun s i => if s =? 1 then 0 else i)
           src' (drop (length dst - length src') idx).

Definition broadcast_to {val} `{!Inhabited val}
    (a : ndarray val) (dst : list nat) : list val :=
  let src' := align (shape a) dst in
  (fun idx => data a !!! offset src' (source_index src' dst idx))
    <$> indices dst.

End np.

(** ** Exceptions, store and the execution monad *)

(** The exceptions that can surface from a backend call.  [AssertionError]
  and [ValueError] carry the message given at the raise site.
  [BroadcastError src dst] is numpy's [ValueError] "could not broadcast
  input array from shape src into shape dst"; [NativeError rc] is the
  [ValueError] ESMPy raises when a native entry point returns the non-zero
  code [rc]; [KeyError] is a failed dictionary subscript and [TypeError] a
  subscript applied to [None]. *)
Inductive exn : Type :=
| AssertionError (msg : string)
| ValueError (msg : string)
| KeyError (key : string)
| TypeError (msg : string)
| BroadcastError (src dst : list nat)
| NativeError (rc : Z).

Inductive Res (A : Type) : Type :=
| Ok (a : A)
| Raise (e : exn).
Arguments Ok {A} _.
Arguments Raise {A} _.

(** Object identities. *)
Abbreviation loc := nat (only parsing).

(** ESMF's stagger locations and regridding methods, by their integer
  codes ([CENTER] "actually just integer 0", [CORNER] "integer 3"). *)
Module StaggerLoc.
Definition CENTER : nat := 0.
Definition CORNER : nat := 3.
End StaggerLoc.

Module CoordSys.
Inductive t := CART | SPH_DEG | SPH_RAD.
End CoordSys.

Module RegridMethod.
Inductive t := BILINEAR | PATCH | CONSERVE | NEAREST_STOD | NEAREST_DTOS.
End RegridMethod.

Module UnmappedAction.
Inductive t := ERROR | IGNORE.
End UnmappedAction.

(** An [ESMF.Grid] object. [grid_coords] maps a stagger location to the
  pair of coordinate buffers (dimension 0, dimension 1) allocated for it. *)
Record Grid : Type := mk_Grid {
grid_max_index : list nat;
grid_has_corners : bool;
grid_coords : gmap nat (loc * loc)
}.

(** An [ESMF.Field] object: its grid, its data buffer and its flag. *)
Record Field : Type := mk_Field {
field_grid : loc;
field_data : loc;
field_finalized : bool
}.

(** An [ESMF.Regrid] object, holding the weights computed by the engine. *)
Record Regrid (W : Type) : Type := mk_Regrid {
regrid_srcfield : loc;
regrid_dstfield : loc;
regrid_weights : W;
regrid_finalized : bool
}.
Arguments mk_Regrid {W} _ _ _ _.
Arguments regrid_srcfield {W} _.
Arguments regrid_dstfield {W} _.
Arguments regrid_weights {W} _.
Arguments regrid_finalized {W} _.

(** A file on disk: a weight file written by the engine, or anything else. *)
Inductive file (W : Type) : Type :=
| WeightFile (w : W)
| OtherFile (contents : string).
Arguments WeightFile {W} _.
Arguments OtherFile {W} _.

(** Entry points of the native library, recorded in call order. *)
Inductive call : Type :=
| GridCreate
| GridAddCoords
| FieldCreate
| RegridStore
| FieldRegrid
| Destroy.

(** The store: the four kinds of objects by identity, the next free
  identity, the file system, the warnings issued so far and the native
  calls made so far. *)
Record State (val W : Type) : Type := mk_State {
arrays : gmap nat (np.ndarray val);
grids : gmap nat Grid;
fields : gmap nat Field;
regrids : gmap nat (Regrid W);
next : nat;
files : gmap string (file W);
warned : list string;
calls : list call
}.
Arguments mk_State {val W} _ _ _ _ _ _ _ _.
Arguments arrays {val W} _.
Arguments grids {val W} _.
Arguments fields {val W} _.
Arguments regrids {val W} _.
Arguments next {val W} _.
Arguments files {val W} _.
Arguments warned {val W} _.
Arguments calls {val W} _.

(** A computation returns a value or raises, and in both cases leaves a
  store behind. *)
Definition M (val W A : Type) : Type := State val W -> Res A * State val W.

Section Monad.
Context {val W : Type}.
Abbreviation St := (State val W).
Abbreviation M := (M val W).

Definition ret {A} (a : A) : M A := fun s => (Ok a, s).

Definition bind {A B} (m : M A) (k : A -> M B) : M B :=
  fun s => match m s with
           | (Ok a, s') => k a s'
           | (Raise e, s') => (Raise e, s')
           end.

Definition raise {A} (e : exn) : M A := fun s => (Raise e, s).

Definition get : M St := fun s => (Ok s, s).

Definition modify (f : St -> St) : M unit := fun s => (Ok tt, f s).

(** [try: m except: h] with a bare [except]. *)
Definition try_except {A} (m : M A) (h : exn -> M A) : M A :=
  fun s => match m s with
           | (Ok a, s') => (Ok a, s')
           | (Raise e, s') => h e s'
           end.

(** [assert c, msg] *)
Definition assert_ (c : bool) (msg : string) : M unit :=
  if c then ret tt else raise (AssertionError msg).

(** [for x in xs: body(x)] *)
Fixpoint for_ {A} (xs : list A) (body : A -> M unit) : M unit :=
  match xs with
  | [] => ret tt
  | x :: xs' => bind (body x) (fun _ => for_ xs' body)
  end.

(** [warnings.warn(msg)] *)
Definition warn (msg : string) : M unit :=
  modify (fun s => mk_State (arrays s) (grids s) (fields s) (regrids s)
                            (next s) (files s) (warned s ++ [msg]) (calls s)).
End Monad.

Notation "x <- m ;; k" := (bind m (fun x => k))
  (at level 100, m at next level, right associativity).
Notation "m ;; k" := (bind m (fun _ => k))
  (at level 100, right associativity).

(** ** The native engine *)

(** The objects of a store, which is what native code can see. *)
Record Memory (val W : Type) : Type := mk_Memory {
  m_arrays : gmap nat (np.ndarray val);
  m_grids : gmap nat Grid;
  m_fields : gmap nat Field;
  m_regrids : gmap nat (Regrid W)
}.
Arguments mk_Memory {val W} _ _ _ _.
Arguments m_arrays {val W} _.
Arguments m_grids {val W} _.
Arguments m_fields {val W} _.
Arguments m_regrids {val W} _.

Definition memory {val W} (s : State val W) : Memory val W :=
  mk_Memory (arrays s) (grids s) (fields s) (regrids s).

(** What the backend leaves to ESMF proper: the contents of freshly
    allocated native memory, the computation of the weights, the
    application of the weights, and the code returned when a weight file
    is already present.  [field_regrid m r src dst] sees all objects,
    including the flags of the three handles it is given, and answers with
    the new contents of the destination buffer or with an error code. *)
Record Engine (val W : Type) : Type := mk_Engine {
  alloc : list nat -> list val;
  regrid_store : Memory val W -> loc -> loc -> RegridMethod.t -> W;
  field_regrid : Memory val W -> loc -> loc -> loc -> Z + list val;
  file_exists_rc : Z
}.
Arguments mk_Engine {val W} _ _ _ _.
Arguments alloc {val W} _ _.
Arguments regrid_store {val W} _ _ _ _ _.
Arguments field_regrid {val W} _ _ _ _ _.
Arguments file_exists_rc {val W} _.

(** ** Store updates *)

Section Store.
Context {val W : Type}.
Abbreviation St := (State val W).

Definition upd_arrays (f : gmap nat (np.ndarray val) -> gmap nat (np.ndarray val))
    (s : St) : St :=
  mk_State (f (arrays s)) (grids s) (fields s) (regrids s)
           (next s) (files s) (warned s) (calls s).

Definition upd_grids (f : gmap nat Grid -> gmap nat Grid) (s : St) : St :=
  mk_State (arrays s) (f (grids s)) (fields s) (regrids s)
           (next s) (files s) (warned s) (calls s).

Definition upd_fields (f : gmap nat Field -> gmap nat Field) (s : St) : St :=
  mk_State (arrays s) (grids s) (f (fields s)) (regrids s)
           (next s) (files s) (warned s) (calls s).

Definition upd_regrids (f : gmap nat (Regrid W) -> gmap nat (Regrid W))
    (s : St) : St :=
  mk_State (arrays s) (grids s) (fields s) (f (regrids s))
           (next s) (files s) (warned s) (calls s).

Definition upd_files (f : gmap string (file W) -> gmap string (file W))
    (s : St) : St :=
  mk_State (arrays s) (grids s) (fields s) (regrids s)
           (next s) (f (files s)) (warned s) (calls s).

(** A fresh object identity. *)
Definition fresh : M val W loc :=
  fun s => (Ok (next s),
            mk_State (arrays s) (grids s) (fields s) (regrids s)
                     (S (next s)) (files s) (warned s) (calls s)).

(** Record that a native entry point is entered. *)
Definition enter (c : call) : M val W unit :=
  modify (fun s => mk_State (arrays s) (grids s) (fields s) (regrids s)
                            (next s) (files s) (warned s) (calls s ++ [c])).

(** Dereferencing.  Python references never dangle; on a store where one
    does, the model stops with a [TypeError]. *)
Definition deref {A} (sel : St -> gmap nat A) (l : loc) : M val W A :=
  s <- get ;;
  match sel s !! l with
  | Some x => ret x
  | None => raise (TypeError "no such object")
  end.

End Store.

(** [os.path.exists] *)
Module os_path.
Definition exists_ {val W} (p : string) : M val W bool :=
  s <- get ;; ret (bool_decide (is_Some (files s !! p))).
End os_path.

(** ** The part of ESMPy the backend uses *)

Module ESMF.
Section WithEngine.
Context {val W : Type} `{!Inhabited val} (E : Engine val W).
Abbreviation M' := (M val W).

(** Shape of the coordinate arrays at a stagger location of a grid without
    periodic dimension: the cell counts at the centre, one more point per
    dimension at the corners. *)
Definition stagger_shape (max_index : list nat) (staggerloc : nat) : list nat :=
  if staggerloc =? StaggerLoc.CORNER then S <$> max_index else max_index.

(** Native memory exposed to Python as a Fortran-ordered array. *)
Definition new_array (sh : list nat) : M' loc :=
  a <- fresh ;;
  modify (upd_arrays (insert a (np.mk_ndarray sh true (alloc E sh)))) ;;
  ret a.

(** [grid.add_coords(staggerloc=...)]: allocates the two coordinate arrays
    of the stagger location, unless they are there already, in which case
    ESMPy only warns.  Corners count as present from then on. *)
Definition add_coords (g : loc) (staggerloc : nat) : M' unit :=
  G <- deref grids g ;;
  match grid_coords G !! staggerloc with
  | Some _ => warn "This coordinate has already been added."
  | None =>
      enter GridAddCoords ;;
      a0 <- new_array (stagger_shape (grid_max_index G) staggerloc) ;;
      a1 <- new_array (stagger_shape (grid_max_index G) staggerloc) ;;
      modify (upd_grids (insert g
        (mk_Grid (grid_max_index G)
                 (grid_has_corners G || (staggerloc =? StaggerLoc.CORNER))
                 (<[staggerloc := (a0, a1)]> (grid_coords G)))))
  end.

(** [ESMF.Grid(max_index, staggerloc=..., coord_sys=...)] *)
Definition Grid (max_index : list nat) (staggerloc : nat)
    (coord_sys : CoordSys.t) : M' loc :=
  enter GridCreate ;;
  g <- fresh ;;
  modify (upd_grids (insert g (mk_Grid max_index false ∅))) ;;
  add_coords g staggerloc ;;
  ret g.

(** [grid.get_coords(coord_dim=..., staggerloc=...)]: the live coordinate
    array, or [None] when the stagger location has no storage. *)
Definition get_coords (g : loc) (coord_dim staggerloc : nat) : M' (option loc) :=
  G <- deref grids g ;;
  ret (match grid_coords G !! staggerloc with
       | Some (a0, a1) => Some (if coord_dim =? 0 then a0 else a1)
       | None => None
       end).

(** [grid.max_index] and [grid.has_corners] *)
Definition max_index (g : loc) : M' (list nat) :=
  G <- deref grids g ;; ret (grid_max_index G).

Definition has_corners (g : loc) : M' bool :=
  G <- deref grids g ;; ret (grid_has_corners G).

(** [ESMF.Field(grid, ndbounds=...)]: a data buffer over the grid's cell
    centres with the extra dimensions trailing. *)
Definition Field (g : loc) (ndbounds : option (list nat)) : M' loc :=
  G <- deref grids g ;;
  enter FieldCreate ;;
  d <- new_array (grid_max_index G ++ default [] ndbounds) ;;
  f <- fresh ;;
  modify (upd_fields (insert f (mk_Field g d false))) ;;
  ret f.

(** [field.data] and [field.finalized] *)
Definition data (f : loc) : M' loc :=
  F <- deref fields f ;; ret (field_data F).

Definition Field_finalized (f : loc) : M' bool :=
  F <- deref fields f ;; ret (field_finalized F).

(** [field.destroy()]: releases the native field once. *)
Definition Field_destroy (f : loc) : M' unit :=
  F <- deref fields f ;;
  if field_finalized F then ret tt
  else
    enter Destroy ;;
    modify (upd_fields (insert f (mk_Field (field_grid F) (field_data F) true))).

(** [ESMF.Regrid(srcfield, dstfield, filename=..., regrid_method=...,
    unmapped_action=...)]: has the engine compute the weights and, when a
    file name is given, write them there.  The engine refuses a file name
    that is taken. *)
Definition Regrid (srcfield dstfield : loc) (filename : option string)
    (regrid_method : RegridMethod.t) (unmapped_action : UnmappedAction.t)
    : M' loc :=
  enter RegridStore ;;
  s <- get ;;
  let w := regrid_store E (memory s) srcfield dstfield regrid_method in
  match filename with
  | Some p =>
      taken <- os_path.exists_ p ;;
      if (taken : bool) then raise (NativeError (file_exists_rc E))
      else modify (upd_files (insert p (WeightFile w)))
  | None => ret tt
  end ;;
  r <- fresh ;;
  modify (upd_regrids (insert r (mk_Regrid srcfield dstfield w false))) ;;
  ret r.

(** [regrid.srcfield], [regrid.dstfield] and [regrid.finalized] *)
Definition srcfield (r : loc) : M' loc :=
  R <- deref regrids r ;; ret (regrid_srcfield R).

Definition dstfield (r : loc) : M' loc :=
  R <- deref regrids r ;; ret (regrid_dstfield R).

Definition Regrid_finalized (r : loc) : M' bool :=
  R <- deref regrids r ;; ret (regrid_finalized R).

(** [regrid(srcfield, dstfield)]: ESMPy passes the handles straight to the
    native routine, which fills the destination buffer in place; the
    destination field is handed back. *)
Definition Regrid_call (r srcfield dstfield : loc) : M' loc :=
  enter FieldRegrid ;;
  s <- get ;;
  match field_regrid E (memory s) r srcfield dstfield with
  | inl rc => raise (NativeError rc)
  | inr out =>
      d <- data dstfield ;;
      modify (upd_arrays (alter
        (fun a => np.mk_ndarray (np.shape a) (np.f_contiguous a) out) d)) ;;
      ret dstfield
  end.

(** [regrid.destroy()] *)
Definition Regrid_destroy (r : loc) : M' unit :=
  R <- deref regrids r ;;
  if regrid_finalized R then ret tt
  else
    enter Destroy ;;
    modify (upd_regrids (insert r
      (mk_Regrid (regrid_srcfield R) (regrid_dstfield R) (regrid_weights R) true))).

End WithEngine.
End ESMF.

(** [target[...] = src] on a live array; [None] cannot be subscripted. *)
Definition setitem_ellipsis {val W} `{!Inhabited val}
    (target : option loc) (src : np.ndarray val) : M val W unit :=
  match target with
  | None => raise (TypeError "'NoneType' object does not support item assignment")
  | Some t =>
      a <- deref arrays t ;;
      if np.broadcastable (np.shape src) (np.shape a)
      then modify (upd_arrays (insert t
             (np.mk_ndarray (np.shape a) (np.f_contiguous a)
                            (np.broadcast_to src (np.shape a)))))
      else raise (BroadcastError (np.shape src) (np.shape a))
  end.

(** ** Python dictionaries and string formatting, as far as needed *)

(** A dictionary literal keeps its keys in the order written. *)
Definition dict (A : Type) : Type := list (string * A).

Fixpoint dict_get {A} (d : dict A) (k : string) : option A :=
  match d with
  | [] => None
  | (k', v) :: d' => if String.eqb k k' then Some v else dict_get d' k
  end.

(** [d[k]] *)
Definition getitem {val W A} (d : dict A) (k : string) : M val W A :=
  match dict_get d k with
  | Some v => ret v
  | None => raise (KeyError k)
  end.

(** [list(d.keys())] *)
Definition keys {A} (d : dict A) : list string := fst <$> d.

(** [repr] of a string without quotes or escapes, and of a list of them. *)
Definition repr_str (s : string) : string := "'" +:+ s +:+ "'".

Fixpoint join (sep : string) (l : list string) : string :=
  match l with
  | [] => ""
  | [x] => x
  | x :: l' => x +:+ sep +:+ join sep l'
  end.

Definition repr_list (l : list string) : string :=
  "[" +:+ join ", " (repr_str <$> l) +:+ "]".

(** ** The backend *)

Section Backend.
Context {val W : Type} `{!Inhabited val} (E : Engine val W).
Abbreviation M'' := (M val W).

Definition f_contiguous_msg : string :=
  "Input array is not F_CONTIGUOUS. Will affect performance.".

(** [warn_f_contiguous(a)] *)
Definition warn_f_contiguous (a : np.ndarray val) : M'' unit :=
  if negb (np.f_contiguous a) then warn f_contiguous_msg else ret tt.

(** [esmf_grid(lon, lat)] *)
Definition esmf_grid (lon lat : np.ndarray val) : M'' loc :=
  for_ [lon; lat] warn_f_contiguous ;;
  assert_ (np.ndim lon =? 2) "Input grid must be 2D array" ;;
  assert_ (bool_decide (np.shape lon = np.shape lat))
          "lon and lat must have same shape" ;;
  let staggerloc := StaggerLoc.CENTER in
  grid <- ESMF.Grid E (np.shape lon) staggerloc CoordSys.SPH_DEG ;;
  lon_pointer <- ESMF.get_coords grid 0 staggerloc ;;
  lat_pointer <- ESMF.get_coords grid 1 staggerloc ;;
  setitem_ellipsis lon_pointer lon ;;
  setitem_ellipsis lat_pointer lat ;;
  ret grid.

(** [add_corner(grid, lon_b, lat_b)] *)
Definition add_corner (grid : loc) (lon_b lat_b : np.ndarray val) : M'' unit :=
  let staggerloc := StaggerLoc.CORNER in
  for_ [lon_b; lat_b] warn_f_contiguous ;;
  assert_ (np.ndim lon_b =? 2) "Input grid must be 2D array" ;;
  assert_ (bool_decide (np.shape lon_b = np.shape lat_b))
          "lon_b and lat_b must have same shape" ;;
  max_index <- ESMF.max_index grid ;;
  assert_ (np.array_equal (np.shape lon_b) (S <$> max_index))
          "lon_b should be size (Nx+1, Ny+1)" ;;
  ESMF.add_coords E grid staggerloc ;;
  lon_b_pointer <- ESMF.get_coords grid 0 staggerloc ;;
  lat_b_pointer <- ESMF.get_coords grid 1 staggerloc ;;
  setitem_ellipsis lon_b_pointer lon_b ;;
  setitem_ellipsis lat_b_pointer lat_b.

Definition method_dict : dict RegridMethod.t :=
  [ ("bilinear", RegridMethod.BILINEAR);
    ("conservative", RegridMethod.CONSERVE);
    ("patch", RegridMethod.PATCH);
    ("nearest_s2d", RegridMethod.NEAREST_STOD);
    ("nearest_d2s", RegridMethod.NEAREST_DTOS) ].

Definition invalid_method_msg : string :=
  "method should be chosen from " +:+ repr_list (keys method_dict).

Definition source_corners_msg : string :=
  "source grid has no corner information. cannot use conservative regridding.".

Definition destination_corners_msg : string :=
  "destination grid has no corner information. cannot use conservative regridding.".

Definition weight_file_msg : string :=
  "Weight file already exists! Please remove it or use a new name.".

(** [esmf_regrid_build(sourcegrid, destgrid, method, filename, extra_dims)] *)
Definition esmf_regrid_build (sourcegrid destgrid : loc) (method : string)
    (filename : option string) (extra_dims : option (list nat)) : M'' loc :=
  esmf_regrid_method <-
    try_except (getitem method_dict method)
               (fun _ => raise (ValueError invalid_method_msg)) ;;
  (if String.eqb method "conservative" then
     src_corners <- ESMF.has_corners sourcegrid ;;
     (if negb src_corners then raise (ValueError source_corners_msg)
      else ret tt) ;;
     dst_corners <- ESMF.has_corners destgrid ;;
     (if negb dst_corners then raise (ValueError destination_corners_msg)
      else ret tt)
   else ret tt) ;;
  sourcefield <- ESMF.Field E sourcegrid extra_dims ;;
  destfield <- ESMF.Field E destgrid extra_dims ;;
  match filename with
  | Some p =>
      present <- os_path.exists_ p ;;
      assert_ (negb present) weight_file_msg
  | None => ret tt
  end ;;
  regrid <- ESMF.Regrid E sourcefield destfield filename
                        esmf_regrid_method UnmappedAction.IGNORE ;;
  ret regrid.

(** [esmf_regrid_apply(regrid, indata)]: the value returned is
    [destfield.data], the destination buffer itself. *)
Definition esmf_regrid_apply (regrid : loc) (indata : np.ndarray val) : M'' loc :=
  warn_f_contiguous indata ;;
  sourcefield <- ESMF.srcfield regrid ;;
  destfield <- ESMF.dstfield regrid ;;
  source_data <- ESMF.data sourcefield ;;
  setitem_ellipsis (Some source_data) indata ;;
  destfield <- ESMF.Regrid_call E regrid sourcefield destfield ;;
  ESMF.data destfield.

(** [esmf_regrid_finalize(regrid)] *)
Definition esmf_regrid_finalize (regrid : loc) : M'' unit :=
  sourcefield <- ESMF.srcfield regrid ;;
  ESMF.Field_destroy sourcefield ;;
  destfield <- ESMF.dstfield regrid ;;
  ESMF.Field_destroy destfield ;;
  ESMF.Regrid_destroy regrid ;;
  sourcefield <- ESMF.srcfield regrid ;;
  src_done <- ESMF.Field_finalized sourcefield ;;
  assert_ src_done "" ;;
  destfield <- ESMF.dstfield regrid ;;
  dst_done <- ESMF.Field_finalized destfield ;;
  assert_ dst_done "" ;;
  done <- ESMF.Regrid_finalized regrid ;;
  assert_ done "".

End Backend.

(** ** Vocabulary of the properties *)

Section Vocabulary.
Context {val W : Type} `{!Inhabited val}.

(** The store after the warnings [ws] have been issued. *)
Definition log_warnings (ws : list string) (s : State val W) : State val W :=
  mk_State (arrays s) (grids s) (fields s) (regrids s)
           (next s) (files s) (warned s ++ ws) (calls s).

(** The warnings the contiguity check issues for a list of arrays. *)
Definition contiguity_warnings (l : list (np.ndarray val)) : list string :=
  a ← l; if np.f_contiguous a then [] else [f_contiguous_msg].

(** How many performance warnings have been issued. *)
Definition performance_warnings (s : State val W) : nat :=
  length (List.filter (String.eqb f_contiguous_msg) (warned s)).

(** A computation that issues no performance warning. *)
Definition quiet {A} (m : M val W A) : Prop :=
  forall s, performance_warnings (m s).2 = performance_warnings s.

(** The same array, laid out in Fortran order. *)
Definition as_contiguous (a : np.ndarray val) : np.ndarray val :=
  np.mk_ndarray (np.shape a) true (np.data a).

(** The store after a native entry point has been entered. *)
Definition log_call (c : call) (s : State val W) : State val W :=
  mk_State (arrays s) (grids s) (fields s) (regrids s)
           (next s) (files s) (warned s) (calls s ++ [c]).

(** An operator [r] laid out in the store: the regrid object, its two
    distinct fields and their two distinct data buffers. *)
Record operator_at (s : State val W) (r : loc) (R : Regrid W)
    (F1 F2 : Field) (A1 A2 : np.ndarray val) : Prop := mk_operator_at {
  op_regrid : regrids s !! r = Some R;
  op_srcfield : fields s !! regrid_srcfield R = Some F1;
  op_dstfield : fields s !! regrid_dstfield R = Some F2;
  op_fields_differ : regrid_srcfield R <> regrid_dstfield R;
  op_src_data : arrays s !! field_data F1 = Some A1;
  op_dst_data : arrays s !! field_data F2 = Some A2;
  op_buffers_differ : field_data F1 <> field_data F2
}.

(** The three flags that [esmf_regrid_finalize] checks in the end. *)
Definition all_finalized (R : Regrid W) (F1 F2 : Field) : bool :=
  field_finalized F1 && field_finalized F2 && regrid_finalized R.

Definition none_finalized (R : Regrid W) (F1 F2 : Field) : bool :=
  negb (field_finalized F1 || field_finalized F2 || regrid_finalized R).

(** The array left in a buffer [A] by [A[...] = indata]. *)
Definition assigned (A indata : np.ndarray val) : np.ndarray val :=
  np.mk_ndarray (np.shape A) (np.f_contiguous A)
                (np.broadcast_to indata (np.shape A)).

(** The store in which [esmf_regrid_apply] enters the native routine: the
    warning, if any, is out and the input sits in the source buffer. *)
Definition at_native_entry (F1 : Field) (A1 indata : np.ndarray val)
    (s : State val W) : State val W :=
  log_call FieldRegrid
    (upd_arrays (insert (field_data F1) (assigned A1 indata))
       (log_warnings (contiguity_warnings [indata]) s)).

(** The store after the native routine has filled buffer [d] with [out]. *)
Definition filled (d : loc) (out : list val) (s : State val W) : State val W :=
  upd_arrays (alter (fun a => np.mk_ndarray (np.shape a) (np.f_contiguous a) out) d) s.

(** The engine serves every call on handles none of which is destroyed. *)
Definition serves_live (E : Engine val W) : Prop :=
  forall m r src dst R F1 F2,
    m_regrids m !! r = Some R ->
    m_fields m !! src = Some F1 ->
    m_fields m !! dst = Some F2 ->
    none_finalized R F1 F2 = true ->
    exists out, field_regrid E m r src dst = inr out.

(** The coordinate storage of a grid is in the store, with the shape of its
    stagger location. *)
Definition coords_allocated (s : State val W) (G : Grid) : Prop :=
  forall staggerloc a0 a1,
    grid_coords G !! staggerloc = Some (a0, a1) ->
    exists A0 A1,
      arrays s !! a0 = Some A0 /\ arrays s !! a1 = Some A1
      /\ np.shape A0 = ESMF.stagger_shape (grid_max_index G) staggerloc
      /\ np.shape A1 = ESMF.stagger_shape (grid_max_index G) staggerloc.

(** The store after [esmf_regrid_build] has created its two fields. *)
Definition with_fields (E : Engine val W) (sg dg : loc) (SG DG : Grid)
    (extra_dims : option (list nat)) (s : State val W) : State val W :=
  let n := next s in
  let src_shape := (grid_max_index SG ++ default [] extra_dims)%list in
  let dst_shape := (grid_max_index DG ++ default [] extra_dims)%list in
  mk_State
    (<[S (S n) := np.mk_ndarray dst_shape true (alloc E dst_shape)]>
       (<[n := np.mk_ndarray src_shape true (alloc E src_shape)]> (arrays s)))
    (grids s)
    (<[S (S (S n)) := mk_Field dg (S (S n)) false]>
       (<[S n := mk_Field sg n false]> (fields s)))
    (regrids s)
    (S (S (S (S n))))
    (files s)
    (warned s)
    ((calls s ++ [FieldCreate]) ++ [FieldCreate]).

(** The store after [ESMF.Regrid] has had the engine compute the weights
    for the two fields, write them to [filename] if one is given, and has
    created the operator. *)
Definition with_regrid (E : Engine val W) (rm : RegridMethod.t)
    (filename : option string) (srcfield dstfield : loc)
    (s : State val W) : State val W :=
  let w := regrid_store E (memory (log_call RegridStore s)) srcfield dstfield rm in
  mk_State (arrays s) (grids s) (fields s)
    (<[next s := mk_Regrid srcfield dstfield w false]> (regrids s))
    (S (next s))
    (match filename with
     | Some p => <[p := WeightFile w]> (files s)
     | None => files s
     end)
    (warned s)
    (calls s ++ [RegridStore]).

(** A field and an operator after [destroy()]. *)
Definition destroyed_field (F : Field) : Field :=
  mk_Field (field_grid F) (field_data F) true.

Definition destroyed_regrid (R : Regrid W) : Regrid W :=
  mk_Regrid (regrid_srcfield R) (regrid_dstfield R) (regrid_weights R) true.

(** An operator none of whose handles is destroyed, with source and
    destination buffers of the given shapes. *)
Definition live_operator (s : State val W) (r : loc)
    (src_shape dst_shape : list nat) : Prop :=
  exists R F1 F2 A1 A2,
    operator_at s r R F1 F2 A1 A2
    /\ none_finalized R F1 F2 = true
    /\ np.shape A1 = src_shape /\ np.shape A2 = dst_shape.

(** How often the engine has been asked to compute weights. *)
Definition weight_computations (s : State val W) : nat :=
  length (List.filter (fun c => match c with RegridStore => true | _ => false end)
                      (calls s)).

(** Whether a file name is given and taken. *)
Definition file_taken (filename : option string) (s : State val W) : bool :=
  match filename with
  | Some p => bool_decide (is_Some (files s !! p))
  | None => false
  end.

(** Whether a method needs corners and a grid lacks them. *)
Definition lacks_corners (method : string) (G : Grid) : bool :=
  String.eqb method "conservative" && negb (grid_has_corners G).

(** *** Properties the specification claims and the backend lacks *)

(** "apply on a finalized operator fails fast, rather than operating on the
    released buffers": an exception, with no buffer written and no native
    routine entered. *)
Definition fails_fast (E : Engine val W) (r : loc) (indata : np.ndarray val)
    (s : State val W) : Prop :=
  exists e s',
    esmf_regrid_apply E r indata s = (Raise e, s')
    /\ arrays s' = arrays s /\ calls s' = calls s.

(** "apply succeeds only when the input shape equals the source shape plus
    the extra dimensions exactly". *)
Definition accepts_exactly (E : Engine val W) (r : loc) (expected : list nat)
    (s : State val W) : Prop :=
  forall indata o s',
    esmf_regrid_apply E r indata s = (Ok o, s') -> np.shape indata = expected.

(** "a later apply leaves every previously returned output array
    unchanged". *)
Definition output_survives (E : Engine val W) (r : loc)
    (first later : np.ndarray val) (s : State val W) : Prop :=
  forall o s1 res s2,
    esmf_regrid_apply E r first s = (Ok o, s1) ->
    esmf_regrid_apply E r later s1 = (res, s2) ->
    arrays s2 !! o = arrays s1 !! o.

End Vocabulary.

(** ** Stores left behind by the grid functions *)

Section GridStores.
Context {val W : Type} `{!Inhabited val}.

(** The store after [esmf_grid(lon, lat)] has succeeded: the grid is object
    [next s], its centre coordinates the two objects after it. *)
Definition grid_made (lon lat : np.ndarray val) (s : State val W) : State val W :=
  let n := next s in
  mk_State
    (<[S (S n) := assigned (np.mk_ndarray (np.shape lon) true []) lat]>
       (<[S n := assigned (np.mk_ndarray (np.shape lon) true []) lon]>
          (arrays s)))
    (<[n := mk_Grid (np.shape lon) false {[StaggerLoc.CENTER := (S n, S (S n))]}]>
       (grids s))
    (fields s) (regrids s)
    (S (S (S n)))
    (files s)
    ((warned s ++ contiguity_warnings [lon; lat])%list)
    (((calls s ++ [GridCreate]) ++ [GridAddCoords])%list).

(** The store after [add_corner(grid, lon_b, lat_b)] has succeeded on a
    grid [G] without corner storage: the corner coordinates are the objects
    [next s] and the one after it. *)
Definition corners_attached (g : loc) (G : Grid) (lon_b lat_b : np.ndarray val)
    (s : State val W) : State val W :=
  let n := next s in
  let corner := S <$> grid_max_index G in
  mk_State
    (<[S n := assigned (np.mk_ndarray corner true []) lat_b]>
       (<[n := assigned (np.mk_ndarray corner true []) lon_b]> (arrays s)))
    (<[g := mk_Grid (grid_max_index G) true
                    (<[StaggerLoc.CORNER := (n, S n)]> (grid_coords G))]>
       (grids s))
    (fields s) (regrids s)
    (S (S n))
    (files s)
    ((warned s ++ contiguity_warnings [lon_b; lat_b])%list)
    ((calls s ++ [GridAddCoords])%list).

(** The native releases [esmf_regrid_finalize] still has to make. *)
Definition destroy_calls (R : Regrid W) (F1 F2 : Field) : list call :=
  ((if field_finalized F1 then [] else [Destroy])
   ++ (if field_finalized F2 then [] else [Destroy])
   ++ (if regrid_finalized R then [] else [Destroy]))%list.

(** The store after [esmf_regrid_finalize] on the operator [r]. *)
Definition finalized_store (r : loc) (R : Regrid W) (F1 F2 : Field)
    (s : State val W) : State val W :=
  mk_State (arrays s) (grids s)
    (<[regrid_dstfield R := destroyed_field F2]>
       (<[regrid_srcfield R := destroyed_field F1]> (fields s)))
    (<[r := destroyed_regrid R]> (regrids s))
    (next s) (files s) (warned s)
    ((calls s ++ destroy_calls R F1 F2)%list).

End GridStores.
(** ** A small concrete setting *)

(** Integers stand in for the floating-point elements, which the backend
    only ever copies.  The test engine serves identical source and
    destination grids: it copies the source buffer over, as every method
    does on identical grids, and refuses handles that were destroyed. *)
Module Demo.

Definition handles_live (m : Memory Z unit) (r src dst : loc) : bool :=
  match m_regrids m !! r, m_fields m !! src, m_fields m !! dst with
  | Some R, Some F1, Some F2 =>
      negb (regrid_finalized R || field_finalized F1 || field_finalized F2)
  | _, _, _ => false
  end.

Definition copy_engine : Engine Z unit :=
  mk_Engine
    (fun sh => replicate (np.size sh) 0%Z)
    (fun _ _ _ _ => tt)
    (fun m r src dst =>
       if handles_live m r src dst then
         inr (default [] (F ← m_fields m !! src;
                          np.data <$> m_arrays m !! field_data F))
       else inl 1%Z)
    1%Z.

Definition empty : State Z unit := mk_State ∅ ∅ ∅ ∅ 0 ∅ [] [].

Definition arr (sh : list nat) (f : bool) (d : list Z) : np.ndarray Z :=
  np.mk_ndarray sh f d.

Definition lon22 : np.ndarray Z := arr [2; 2] true [10; 10; 20; 20]%Z.
Definition lat22 : np.ndarray Z := arr [2; 2] true [50; 60; 50; 60]%Z.

Definition lon45 : np.ndarray Z := arr [4; 5] true (replicate 20 0%Z).
Definition corner56 : np.ndarray Z := arr [5; 6] true (replicate 30 0%Z).
Definition corner55 : np.ndarray Z := arr [5; 5] true (replicate 25 0%Z).

Definition data1 : np.ndarray Z := arr [2; 2] true [1; 2; 3; 4]%Z.
Definition data2 : np.ndarray Z := arr [2; 2] true [5; 6; 7; 8]%Z.
Definition row : np.ndarray Z := arr [3; 2] false [1; 2; 3; 4; 5; 6]%Z.

(** A 2 x 2 grid (object 0) and a 4 x 5 grid (object 0 of its store). *)
Definition s_grid : State Z unit := (esmf_grid copy_engine lon22 lat22 empty).2.
Definition s_grid45 : State Z unit := (esmf_grid copy_engine lon45 lon45 empty).2.

(** The same with corners. *)
Definition s_corners : State Z unit :=
  (add_corner copy_engine 0 corner56 corner56 s_grid45).2.

(** A bilinear operator from the 2 x 2 grid to itself (object 7: fields 4
    and 6 over the buffers 3 and 5), without and with extra dimensions. *)
Definition s_built : State Z unit :=
  (esmf_regrid_build copy_engine 0 0 "bilinear" None None s_grid).2.
Definition s_built32 : State Z unit :=
  (esmf_regrid_build copy_engine 0 0 "bilinear" None (Some [3; 2]) s_grid).2.

(** The operator after one call, and after [esmf_regrid_finalize]. *)
Definition s_used : State Z unit :=
  (esmf_regrid_apply copy_engine 7 data1 s_built).2.
Definition s_finalized : State Z unit := (esmf_regrid_finalize 7 s_used).2.

(** The store of the grid with a file in the way. *)
Definition s_file : State Z unit :=
  upd_files (insert "weights.nc" (OtherFile "precious")) s_grid.

Definition op_regrid (finalized : bool) : Regrid unit :=
  mk_Regrid 4 6 tt finalized.
Definition op_src (finalized : bool) : Field := mk_Field 0 3 finalized.
Definition op_dst (finalized : bool) : Field := mk_Field 0 5 finalized.
Definition zeros22 : np.ndarray Z := arr [2; 2] true [0; 0; 0; 0]%Z.
Definition grid22 : Grid := mk_Grid [2; 2] false {[ 0 := (1, 2) ]}.
Definition grid45 : Grid := mk_Grid [4; 5] false {[ 0 := (1, 2) ]}.
Definition grid45_corners : Grid :=
  mk_Grid [4; 5] true (<[ 3 := (3, 4) ]> {[ 0 := (1, 2) ]}).

Definition scalar : np.ndarray Z := arr [] true [9]%Z.

(** A second operator on the same grid (object 12). *)
Definition s_built_twice : State Z unit :=
  (esmf_regrid_build copy_engine 0 0 "patch" None None s_built).2.

(** An operator built with a weight file (object 7 again). *)
Definition s_built_file : State Z unit :=
  (esmf_regrid_build copy_engine 0 0 "bilinear" (Some "weights.nc") None s_grid).2.

End Demo.


(** ** Properties *)

(** *** Running the monad *)

Ltac munfold :=
  unfold ESMF.Grid, ESMF.add_coords, ESMF.get_coords, ESMF.new_array,
    ESMF.max_index, ESMF.has_corners, ESMF.Field, ESMF.data,
    ESMF.Field_finalized, ESMF.Field_destroy, ESMF.Regrid, ESMF.srcfield,
    ESMF.dstfield, ESMF.Regrid_finalized, ESMF.Regrid_call,
    ESMF.Regrid_destroy, os_path.exists_,
    setitem_ellipsis, deref, enter, fresh, warn, modify, get, bind, ret,
    raise, assert_, try_except, getitem.

Lemma forallb_dim_ok_refl sh : forallb np.dim_ok (zip sh sh) = true.
Proof.
  induction sh as [|n sh IH]; [done|]. simpl. rewrite IH.
  unfold np.dim_ok. simpl. by rewrite Nat.eqb_refl.
Qed.

Lemma broadcastable_refl sh : np.broadcastable sh sh = true.
Proof.
  unfold np.broadcastable, np.align. rewrite Nat.sub_diag. simpl.
  replace (np.strip_ones 0 sh) with sh by (by destruct sh).
  rewrite Nat.sub_diag, Nat.leb_refl. simpl. apply forallb_dim_ok_refl.
Qed.

Ltac mstep :=
  first [ rewrite lookup_insert_eq
        | rewrite lookup_insert_ne by lia
        | rewrite lookup_empty
        | rewrite broadcastable_refl ]; simpl.


(** *** numpy: assignment between arrays of one shape copies the elements *)

Lemma fmap_list_bind {A B C} (f : B -> C) (g : A -> list B) (l : list A) :
  f <$> (l ≫= g) = l ≫= (fun x => f <$> g x).
Proof. induction l as [|x l IH]; csimpl; [done|]. by rewrite fmap_app, IH. Qed.

Lemma seq_blocks k a n : (i ← seq a n; seq (i * k) k) = seq (a * k) (n * k).
Proof.
  revert a. induction n as [|n IH]; intros a; [done|].
  simpl. rewrite IH. rewrite seq_app. do 2 f_equal. lia.
Qed.

Lemma indices_offsets sh : np.offset sh <$> np.indices sh = seq 0 (np.size sh).
Proof.
  induction sh as [|n sh IH]; [done|].
  simpl. rewrite fmap_list_bind.
  transitivity (i ← seq 0 n; seq (i * np.size sh) (np.size sh));
    [|apply (seq_blocks (np.size sh) 0 n)].
  apply list_bind_ext; [|done]. intros i.
  transitivity (Nat.add (i * np.size sh) <$> seq 0 (np.size sh));
    [|rewrite fmap_add_seq; f_equal; lia].
  by rewrite <- IH, <- !list_fmap_compose.
Qed.

Lemma source_index_indices sh idx :
  idx ∈ np.indices sh ->
  zip_with (fun s i => if s =? 1 then 0 else i) sh idx = idx.
Proof.
  revert idx. induction sh as [|n sh IH]; intros idx.
  - simpl. by intros ->%list_elem_of_singleton.
  - simpl. intros (i & Hidx & Hi)%list_elem_of_bind.
    apply list_elem_of_fmap in Hidx as (idx' & -> & Hidx').
    simpl. rewrite IH by done. f_equal.
    destruct (Nat.eqb_spec n 1) as [->|]; [|done].
    apply elem_of_seq in Hi. lia.
Qed.

Lemma lookup_total_seq {A} `{!Inhabited A} (l : list A) :
  (fun i => l !!! i) <$> seq 0 (length l) = l.
Proof.
  apply list_eq. intros i. rewrite list_lookup_fmap.
  destruct (decide (i < length l)) as [Hi|Hi].
  - rewrite lookup_seq_lt by done. simpl.
    symmetry. by apply list_lookup_lookup_total_lt.
  - rewrite lookup_seq_ge by lia. simpl. symmetry. apply lookup_ge_None. lia.
Qed.

(** A well-formed array broadcast to its own shape is itself. *)
Lemma broadcast_to_same_shape {val} `{!Inhabited val} (a : np.ndarray val) :
  length (np.data a) = np.size (np.shape a) ->
  np.broadcast_to a (np.shape a) = np.data a.
Proof.
  intros Hlen. unfold np.broadcast_to, np.align, np.source_index.
  rewrite Nat.sub_diag.
  replace (np.strip_ones 0 (np.shape a)) with (np.shape a)
    by (by destruct (np.shape a)).
  rewrite Nat.sub_diag.
  etrans; [|apply (lookup_total_seq (np.data a))].
  rewrite Hlen, <- indices_offsets, <- list_fmap_compose.
  apply Forall_fmap_ext, Forall_forall. intros idx Hidx. simpl.
  by rewrite source_index_indices.
Qed.
Section Properties.
Context {val W : Type} `{!Inhabited val} (E : Engine val W).

Lemma bind_run {A B} (m : M val W A) (k : A -> M val W B) s a s' :
  m s = (Ok a, s') -> (x <- m ;; k x) s = k a s'.
Proof. intros H. unfold bind. by rewrite H. Qed.

Lemma bind_raise {A B} (m : M val W A) (k : A -> M val W B) s e s' :
  m s = (Raise e, s') -> (x <- m ;; k x) s = (Raise e, s').
Proof. intros H. unfold bind. by rewrite H. Qed.

Lemma log_warnings_nil (s : State val W) : log_warnings [] s = s.
Proof. destruct s; unfold log_warnings; simpl. by rewrite app_nil_r. Qed.

Lemma log_warnings_app ws1 ws2 (s : State val W) :
  log_warnings ws2 (log_warnings ws1 s) = log_warnings (ws1 ++ ws2) s.
Proof. unfold log_warnings; simpl. by rewrite app_assoc. Qed.

Lemma warn_f_contiguous_run (a : np.ndarray val) (s : State val W) :
  warn_f_contiguous a s = (Ok tt, log_warnings (contiguity_warnings [a]) s).
Proof.
  unfold warn_f_contiguous, contiguity_warnings. simpl.
  destruct (np.f_contiguous a); simpl.
  - by rewrite log_warnings_nil.
  - reflexivity.
Qed.

Lemma for_warn_run (l : list (np.ndarray val)) (s : State val W) :
  for_ l warn_f_contiguous s = (Ok tt, log_warnings (contiguity_warnings l) s).
Proof.
  revert s. induction l as [|a l IH]; intros s.
  - simpl. by rewrite log_warnings_nil.
  - simpl. unfold bind. rewrite warn_f_contiguous_run, IH, log_warnings_app.
    do 2 f_equal. unfold contiguity_warnings. simpl. by rewrite app_nil_r.
Qed.

(** *** Applying an operator *)

(** What [esmf_regrid_apply] does on any operator, whatever its flags: the
    input goes into the source buffer by broadcasting, the native routine is
    entered, and the destination buffer itself is returned. *)
Lemma apply_run s r R F1 F2 A1 A2 indata :
  operator_at s r R F1 F2 A1 A2 ->
  esmf_regrid_apply E r indata s =
    if np.broadcastable (np.shape indata) (np.shape A1) then
      let s_e := at_native_entry F1 A1 indata s in
      match field_regrid E (memory s_e) r (regrid_srcfield R) (regrid_dstfield R) with
      | inl rc => (Raise (NativeError rc), s_e)
      | inr out => (Ok (field_data F2), filled (field_data F2) out s_e)
      end
    else (Raise (BroadcastError (np.shape indata) (np.shape A1)),
          log_warnings (contiguity_warnings [indata]) s).
Proof.
  intros [HR HF1 HF2 Hf HA1 HA2 Hb]. unfold esmf_regrid_apply.
  rewrite (bind_run _ _ _ _ _ (warn_f_contiguous_run indata s)).
  munfold. simpl. rewrite HR. simpl. rewrite HR. simpl. rewrite HF1. simpl.
  rewrite HA1. simpl.
  destruct (np.broadcastable (np.shape indata) (np.shape A1)); [|reflexivity].
  simpl. unfold at_native_entry, assigned, log_call, memory. simpl.
  destruct (field_regrid E _ r (regrid_srcfield R) (regrid_dstfield R)) as [rc|out];
    [reflexivity|].
  munfold. simpl. rewrite HF2. simpl. rewrite HF2. reflexivity.
Qed.

(** *** Who issues performance warnings *)

Lemma quiet_ret {A} (a : A) : quiet (ret a : M val W A).
Proof. by intros s. Qed.

Lemma quiet_raise {A} e : quiet (raise e : M val W A).
Proof. by intros s. Qed.

Lemma quiet_get : quiet (get : M val W (State val W)).
Proof. by intros s. Qed.

Lemma quiet_bind {A B} (m : M val W A) (k : A -> M val W B) :
  quiet m -> (forall a, quiet (k a)) -> quiet (x <- m ;; k x).
Proof.
  intros Hm Hk s. unfold bind. specialize (Hm s).
  destruct (m s) as [[a|e] s1]; simpl in *; [|done].
  by rewrite Hk.
Qed.

Lemma quiet_modify (f : State val W -> State val W) :
  (forall s, warned (f s) = warned s) -> quiet (modify f).
Proof. intros Hf s. unfold modify, performance_warnings. simpl. by rewrite Hf. Qed.

Lemma quiet_fresh : quiet (fresh : M val W nat).
Proof. by intros s. Qed.

Lemma quiet_enter c : quiet (enter c : M val W unit).
Proof. by apply quiet_modify. Qed.

Lemma quiet_assert c msg : quiet (assert_ c msg : M val W unit).
Proof. destruct c; [apply quiet_ret|apply quiet_raise]. Qed.

Lemma quiet_warn msg :
  String.eqb f_contiguous_msg msg = false -> quiet (warn msg : M val W unit).
Proof.
  intros Hne s. unfold warn, modify, performance_warnings.
  cbn [snd warned]. rewrite List.filter_app. cbn [List.filter].
  rewrite Hne. by rewrite app_nil_r.
Qed.

Lemma quiet_deref {A} (sel : State val W -> gmap nat A) l : quiet (deref sel l).
Proof.
  unfold deref. apply quiet_bind; [apply quiet_get|]. intros s.
  destruct (sel s !! l); [apply quiet_ret|apply quiet_raise].
Qed.

Create HintDb quiet.

#[local] Hint Resolve quiet_ret quiet_raise quiet_get quiet_fresh quiet_enter
  quiet_assert quiet_deref : quiet.

Ltac quiet_step :=
  first
    [ apply quiet_bind; [|intros ?]
    | apply quiet_modify; intros ?; reflexivity
    | apply quiet_warn; reflexivity
    | solve [auto with quiet]
    | match goal with
      | |- quiet (match ?x with _ => _ end) => destruct x
      | |- quiet (let 'pair _ _ := ?x in _) => destruct x
      end ].

Ltac quiet_tac := repeat quiet_step.

Lemma quiet_new_array sh : quiet (ESMF.new_array E sh).
Proof. unfold ESMF.new_array. quiet_tac. Qed.

#[local] Hint Resolve quiet_new_array : quiet.

Lemma quiet_add_coords g staggerloc : quiet (ESMF.add_coords E g staggerloc).
Proof.
  unfold ESMF.add_coords. quiet_tac.
Qed.

#[local] Hint Resolve quiet_add_coords : quiet.

Lemma quiet_get_coords g d staggerloc :
  quiet (ESMF.get_coords g d staggerloc : M val W (option nat)).
Proof. unfold ESMF.get_coords. quiet_tac. Qed.

#[local] Hint Resolve quiet_get_coords : quiet.

Lemma quiet_Grid sh staggerloc cs : quiet (ESMF.Grid E sh staggerloc cs).
Proof. unfold ESMF.Grid. quiet_tac. Qed.

#[local] Hint Resolve quiet_Grid : quiet.

Lemma quiet_setitem target (src : np.ndarray val) :
  quiet (setitem_ellipsis target src : M val W unit).
Proof. unfold setitem_ellipsis. quiet_tac. Qed.

#[local] Hint Resolve quiet_setitem : quiet.

Lemma quiet_data f : quiet (ESMF.data f : M val W nat).
Proof. unfold ESMF.data. quiet_tac. Qed.

#[local] Hint Resolve quiet_data : quiet.

Lemma quiet_Regrid_call r src dst : quiet (ESMF.Regrid_call E r src dst).
Proof. unfold ESMF.Regrid_call. quiet_tac. Qed.

Lemma quiet_attribute {A} (sel : State val W -> gmap nat A) {B} (proj : A -> B) l :
  quiet (x <- deref sel l ;; ret (proj x)).
Proof. quiet_tac. Qed.

#[local] Hint Resolve quiet_Regrid_call quiet_attribute : quiet.

Lemma contiguity_warnings_cons (a : np.ndarray val) l :
  contiguity_warnings (a :: l)
  = ((if np.f_contiguous a then [] else [f_contiguous_msg])
     ++ contiguity_warnings l)%list.
Proof. reflexivity. Qed.

Lemma contiguity_warnings_all_performance (l : list (np.ndarray val)) :
  length (List.filter (String.eqb f_contiguous_msg) (contiguity_warnings l))
  = length (contiguity_warnings l).
Proof.
  induction l as [|a l IH]; [done|].
  rewrite contiguity_warnings_cons, List.filter_app, !length_app, IH.
  f_equal. destruct (np.f_contiguous a); [done|].
  cbn [List.filter]. by rewrite String.eqb_refl.
Qed.

Lemma performance_warnings_logged (l : list (np.ndarray val)) (s : State val W) :
  performance_warnings (log_warnings (contiguity_warnings l) s)
  = performance_warnings s + length (contiguity_warnings l).
Proof.
  unfold performance_warnings, log_warnings. cbn [warned].
  by rewrite List.filter_app, length_app, contiguity_warnings_all_performance.
Qed.

(** The statements of a backend function after its contiguity checks issue
    no performance warning, so the count grows by the checks' warnings. *)
Ltac count_after_checks :=
  cbv beta;
  match goal with
  | |- performance_warnings (?m ?s).2 = _ =>
      transitivity (performance_warnings s);
      [ let Hq := fresh "Hq" in
        enough (quiet m) as Hq by apply Hq;
        unfold ESMF.max_index, ESMF.srcfield, ESMF.dstfield; quiet_tac
      | apply performance_warnings_logged ]
  end.

(** *** The contiguity check *)

(** C9. The contiguity check only ever issues a warning: it returns
    normally on every array, logs the performance warning exactly when the
    array is not Fortran-contiguous, and changes nothing else.  [esmf_grid],
    [add_corner] and [esmf_regrid_apply] run it on each array they are given
    before anything else, and then go on exactly as they would for
    Fortran-ordered arrays of the same shape and contents; over the whole
    call the number of performance warnings grows by one for each array
    that is not Fortran-contiguous, whether the call succeeds or raises. *)
Theorem contiguity_warning_nonfatal :
  (forall (a : np.ndarray val) (s : State val W),
     warn_f_contiguous a s
     = (Ok tt, log_warnings (if np.f_contiguous a then [] else [f_contiguous_msg]) s))
  /\ (forall lon lat s,
        esmf_grid E lon lat s
        = esmf_grid E (as_contiguous lon) (as_contiguous lat)
            (log_warnings (contiguity_warnings [lon; lat]) s))
  /\ (forall grid lon_b lat_b s,
        add_corner E grid lon_b lat_b s
        = add_corner E grid (as_contiguous lon_b) (as_contiguous lat_b)
            (log_warnings (contiguity_warnings [lon_b; lat_b]) s))
  /\ (forall regrid indata s,
        esmf_regrid_apply E regrid indata s
        = esmf_regrid_apply E regrid (as_contiguous indata)
            (log_warnings (contiguity_warnings [indata]) s))
  /\ (forall lon lat s,
        performance_warnings (esmf_grid E lon lat s).2
        = performance_warnings s + length (contiguity_warnings [lon; lat]))
  /\ (forall grid lon_b lat_b s,
        performance_warnings (add_corner E grid lon_b lat_b s).2
        = performance_warnings s + length (contiguity_warnings [lon_b; lat_b]))
  /\ (forall regrid indata s,
        performance_warnings (esmf_regrid_apply E regrid indata s).2
        = performance_warnings s + length (contiguity_warnings [indata])).
Proof.
  split; [|split; [|split; [|split; [|split; [|split]]]]].
  - intros a s. rewrite warn_f_contiguous_run. unfold contiguity_warnings. simpl.
    by destruct (np.f_contiguous a).
  - intros lon lat s. unfold esmf_grid.
    rewrite (bind_run _ _ _ _ _ (for_warn_run [lon; lat] s)).
    rewrite (bind_run _ _ _ _ _ (for_warn_run [as_contiguous lon; as_contiguous lat] _)).
    simpl. rewrite log_warnings_nil. reflexivity.
  - intros g lon_b lat_b s. unfold add_corner.
    rewrite (bind_run _ _ _ _ _ (for_warn_run [lon_b; lat_b] s)).
    rewrite (bind_run _ _ _ _ _ (for_warn_run [as_contiguous lon_b; as_contiguous lat_b] _)).
    simpl. rewrite log_warnings_nil. reflexivity.
  - intros r indata s. unfold esmf_regrid_apply.
    rewrite (bind_run _ _ _ _ _ (warn_f_contiguous_run indata s)).
    rewrite (bind_run _ _ _ _ _ (warn_f_contiguous_run (as_contiguous indata) _)).
    simpl. rewrite log_warnings_nil. reflexivity.
  - intros lon lat s. unfold esmf_grid.
    rewrite (bind_run _ _ _ _ _ (for_warn_run [lon; lat] s)).
    count_after_checks.
  - intros g lon_b lat_b s. unfold add_corner.
    rewrite (bind_run _ _ _ _ _ (for_warn_run [lon_b; lat_b] s)).
    count_after_checks.
  - intros r indata s. unfold esmf_regrid_apply.
    rewrite (bind_run _ _ _ _ _ (warn_f_contiguous_run indata s)).
    count_after_checks.
Qed.


(** *** Building an operator *)

Lemma dict_get_None {A} (d : dict A) k : dict_get d k = None <-> k ∉ keys d.
Proof.
  induction d as [|[k' v] d IH]; simpl.
  - split; [intros _; apply not_elem_of_nil | done].
  - destruct (String.eqb_spec k k') as [->|Hne].
    + split; [done|]. intros Hn. exfalso. apply Hn. unfold keys. simpl. left.
    + rewrite IH. unfold keys. simpl. rewrite not_elem_of_cons. tauto.
Qed.

(** What [esmf_regrid_build] does on two grids of the store: the checks in
    their order, the two fields, the file check and only then the engine. *)
Lemma build_run s sg dg SG DG method filename extra_dims :
  grids s !! sg = Some SG -> grids s !! dg = Some DG ->
  esmf_regrid_build E sg dg method filename extra_dims s =
    match dict_get method_dict method with
    | None => (Raise (ValueError invalid_method_msg), s)
    | Some rm =>
        if lacks_corners method SG
        then (Raise (ValueError source_corners_msg), s)
        else if lacks_corners method DG
        then (Raise (ValueError destination_corners_msg), s)
        else
          let s_f := with_fields E sg dg SG DG extra_dims s in
          if file_taken filename s
          then (Raise (AssertionError weight_file_msg), s_f)
          else (Ok (next s_f),
                with_regrid E rm filename (S (next s)) (S (S (S (next s)))) s_f)
    end.
Proof.
  intros HSG HDG. unfold esmf_regrid_build, lacks_corners.
  unfold try_except at 1, getitem, bind at 1.
  destruct (dict_get method_dict method) as [rm|]; [|reflexivity].
  unfold ret at 1.
  assert (Hcorner :
    (if String.eqb method "conservative"
     then src_corners <- ESMF.has_corners sg ;;
          (if negb src_corners then raise (ValueError source_corners_msg)
           else ret tt) ;;
          dst_corners <- ESMF.has_corners dg ;;
          (if negb dst_corners then raise (ValueError destination_corners_msg)
           else ret tt)
     else ret tt) s
    = if String.eqb method "conservative" && negb (grid_has_corners SG)
      then (Raise (ValueError source_corners_msg), s)
      else if String.eqb method "conservative" && negb (grid_has_corners DG)
      then (Raise (ValueError destination_corners_msg), s)
      else (Ok tt, s)).
  { destruct (String.eqb method "conservative"); [|reflexivity].
    munfold. simpl. rewrite HSG. simpl.
    destruct (grid_has_corners SG); [|reflexivity]. simpl. rewrite HDG. simpl.
    by destruct (grid_has_corners DG). }
  unfold bind at 1. rewrite Hcorner. clear Hcorner.
  destruct (String.eqb method "conservative" && negb (grid_has_corners SG));
    [reflexivity|].
  destruct (String.eqb method "conservative" && negb (grid_has_corners DG));
    [reflexivity|].
  munfold. simpl. rewrite HSG. simpl. rewrite HDG. simpl.
  destruct filename as [p|]; simpl; [|reflexivity].
  destruct (files s !! p) as [f|] eqn:Hp; simpl.
  - reflexivity.
  - rewrite Hp. reflexivity.
Qed.

Lemma build_live_operator s sg dg SG DG method filename extra_dims r s' :
  grids s !! sg = Some SG -> grids s !! dg = Some DG ->
  esmf_regrid_build E sg dg method filename extra_dims s = (Ok r, s') ->
  live_operator s' r (grid_max_index SG ++ default [] extra_dims)
                     (grid_max_index DG ++ default [] extra_dims).
Proof.
  intros HSG HDG. rewrite (build_run _ _ _ _ _ _ _ _ HSG HDG).
  destruct (dict_get method_dict method) as [rm|]; [|done].
  destruct (lacks_corners method SG); [done|].
  destruct (lacks_corners method DG); [done|].
  simpl. destruct (file_taken filename s); [done|].
  intros [= <- <-].
  eexists _, _, _, _, _. split.
  { constructor.
    - simpl. apply lookup_insert_eq.
    - simpl. rewrite lookup_insert_ne by lia. apply lookup_insert_eq.
    - simpl. apply lookup_insert_eq.
    - simpl. lia.
    - simpl. rewrite lookup_insert_ne by lia. apply lookup_insert_eq.
    - simpl. apply lookup_insert_eq.
    - simpl. lia. }
  split; [reflexivity|]. split; reflexivity.
Qed.

Lemma invalid_method_rejected_helper :
  forall method, method ∉ keys method_dict ->
    forall sg dg filename extra_dims (s : State val W),
      esmf_regrid_build E sg dg method filename extra_dims s
      = (Raise (ValueError invalid_method_msg), s).
Proof.
  intros method Hm sg dg filename extra_dims s.
  apply dict_get_None in Hm. unfold esmf_regrid_build.
  unfold try_except at 1, getitem, bind at 1. by rewrite Hm.
Qed.

(** C5. A method name that is not a key of the method table makes
    [esmf_regrid_build] raise, before anything else happens, the
    [ValueError] whose message lists all five valid names; the five names of
    the enumeration are exactly the keys.  For each of them the lookup
    succeeds: the build never raises the method error, and when the grids
    have the corners the method needs and no file stands at the given name
    it returns the operator computed with the method the table gives. *)
Theorem invalid_method_rejected :
  (forall method, method ∉ keys method_dict ->
     forall sg dg filename extra_dims (s : State val W),
       esmf_regrid_build E sg dg method filename extra_dims s
       = (Raise (ValueError invalid_method_msg), s))
  /\ keys method_dict
     = ["bilinear"; "conservative"; "patch"; "nearest_s2d"; "nearest_d2s"]
  /\ invalid_method_msg
     = "method should be chosen from ['bilinear', 'conservative', 'patch', 'nearest_s2d', 'nearest_d2s']"
  /\ (forall method, method ∈ keys method_dict ->
        exists rm, forall s : State val W,
          try_except (getitem method_dict method)
                     (fun _ => raise (ValueError invalid_method_msg)) s
          = (Ok rm, s))
  /\ (forall method, method ∈ keys method_dict ->
        forall sg dg SG DG filename extra_dims (s : State val W),
          grids s !! sg = Some SG -> grids s !! dg = Some DG ->
          (forall s',
             esmf_regrid_build E sg dg method filename extra_dims s
             <> (Raise (ValueError invalid_method_msg), s'))
          /\ (lacks_corners method SG = false ->
              lacks_corners method DG = false ->
              file_taken filename s = false ->
              exists rm,
                dict_get method_dict method = Some rm
                /\ esmf_regrid_build E sg dg method filename extra_dims s
                   = (Ok (S (S (S (S (next s))))),
                      with_regrid E rm filename (S (next s)) (S (S (S (next s))))
                        (with_fields E sg dg SG DG extra_dims s)))).
Proof.
  split; [|split; [reflexivity|split; [reflexivity|split]]].
  - apply invalid_method_rejected_helper.
  - intros method Hm.
    destruct (dict_get method_dict method) as [rm|] eqn:Hd.
    + exists rm. intros s. unfold try_except, getitem. by rewrite Hd.
    + apply dict_get_None in Hd. done.
  - intros method Hm sg dg SG DG filename extra_dims s HSG HDG.
    rewrite (build_run _ _ _ _ _ _ _ _ HSG HDG).
    destruct (dict_get method_dict method) as [rm|] eqn:Hd.
    2:{ apply dict_get_None in Hd. done. }
    split.
    + intros s'.
      destruct (lacks_corners method SG); [intros [= Hmsg _]; discriminate Hmsg|].
      destruct (lacks_corners method DG); [intros [= Hmsg _]; discriminate Hmsg|].
      cbv zeta. by destruct (file_taken filename s).
    + intros -> -> Hfree. cbv zeta. rewrite Hfree. by exists rm.
Qed.

(** C6. With method [conservative], a source grid without corners makes
    [esmf_regrid_build] raise the [ValueError] that names the source grid, a
    destination grid without corners (the source having them) the one that
    names the destination grid, in both cases leaving the store as it was;
    with corners on both grids the build goes through, provided no file
    stands at the given name. *)
Theorem conservative_needs_corners s sg dg SG DG filename extra_dims :
  grids s !! sg = Some SG -> grids s !! dg = Some DG ->
  (grid_has_corners SG = false ->
     esmf_regrid_build E sg dg "conservative" filename extra_dims s
     = (Raise (ValueError source_corners_msg), s))
  /\ (grid_has_corners SG = true -> grid_has_corners DG = false ->
        esmf_regrid_build E sg dg "conservative" filename extra_dims s
        = (Raise (ValueError destination_corners_msg), s))
  /\ (grid_has_corners SG = true -> grid_has_corners DG = true ->
        file_taken filename s = false ->
        exists r s',
          esmf_regrid_build E sg dg "conservative" filename extra_dims s
          = (Ok r, s'))
  /\ String.prefix "source grid" source_corners_msg = true
  /\ String.prefix "destination grid" destination_corners_msg = true.
Proof.
  intros HSG HDG. rewrite (build_run _ _ _ _ _ _ _ _ HSG HDG).
  unfold lacks_corners. simpl.
  split; [|split; [|split; [|split; reflexivity]]].
  - by intros ->.
  - by intros -> ->.
  - intros -> -> ->. simpl. eauto.
Qed.

Ltac solve_failed_build :=
  eexists _, _; split; [reflexivity|]; simpl;
  repeat split; try reflexivity;
  unfold weight_computations; simpl;
  rewrite ?List.filter_app; simpl; rewrite ?app_nil_r; reflexivity.

(** C4. A build given the name of an existing file fails with the
    weight-file assertion before the engine is asked for weights, and no
    file is touched: this holds for every call whose method is valid and
    whose grids have the corners the method needs, the only effect being
    the two fields created before the check.  For the remaining calls the
    method or corner error comes first; they too fail without weights being
    computed and without a file being touched. *)
Theorem existing_weight_file_rejected s sg dg method path extra_dims :
  is_Some (files s !! path) ->
  (forall SG DG,
     grids s !! sg = Some SG -> grids s !! dg = Some DG ->
     method ∈ keys method_dict ->
     lacks_corners method SG = false -> lacks_corners method DG = false ->
     exists s',
       esmf_regrid_build E sg dg method (Some path) extra_dims s
       = (Raise (AssertionError weight_file_msg), s')
       /\ files s' = files s
       /\ regrids s' = regrids s
       /\ weight_computations s' = weight_computations s
       /\ s' = with_fields E sg dg SG DG extra_dims s)
  /\ (exists e s',
        esmf_regrid_build E sg dg method (Some path) extra_dims s = (Raise e, s')
        /\ files s' = files s /\ regrids s' = regrids s
        /\ weight_computations s' = weight_computations s).
Proof.
  intros Hp.
  assert (Htaken : file_taken (Some path) s = true)
    by (simpl; by apply bool_decide_eq_true_2).
  split; [|].
  2:{ destruct (grids s !! sg) as [SG|] eqn:HSG;
      destruct (grids s !! dg) as [DG|] eqn:HDG.
    + rewrite (build_run _ _ _ _ _ _ _ _ HSG HDG).
      destruct (dict_get method_dict method); [|solve_failed_build].
      destruct (lacks_corners method SG); [solve_failed_build|].
      destruct (lacks_corners method DG); [solve_failed_build|].
      cbv zeta. rewrite Htaken. solve_failed_build.
    + unfold esmf_regrid_build.
      unfold try_except at 1, getitem, bind at 1.
      destruct (dict_get method_dict method); [|solve_failed_build].
      unfold ret at 1. munfold.
      destruct (String.eqb method "conservative"); simpl; rewrite HSG; simpl.
      * destruct (grid_has_corners SG); simpl; [|solve_failed_build].
        rewrite HDG. simpl. solve_failed_build.
      * rewrite HDG. simpl. solve_failed_build.
    + unfold esmf_regrid_build.
      unfold try_except at 1, getitem, bind at 1.
      destruct (dict_get method_dict method); [|solve_failed_build].
      unfold ret at 1. munfold.
      destruct (String.eqb method "conservative"); simpl; rewrite HSG; simpl;
        solve_failed_build.
    + unfold esmf_regrid_build.
      unfold try_except at 1, getitem, bind at 1.
      destruct (dict_get method_dict method); [|solve_failed_build].
      unfold ret at 1. munfold.
      destruct (String.eqb method "conservative"); simpl; rewrite HSG; simpl;
        solve_failed_build. }
  intros SG DG HSG HDG Hm HS HD.
  rewrite (build_run _ _ _ _ _ _ _ _ HSG HDG), HS, HD.
  destruct (dict_get method_dict method) eqn:Hd.
  - cbv zeta. rewrite Htaken. eexists. split; [reflexivity|]. simpl.
    repeat split; try reflexivity.
    unfold weight_computations. simpl.
    rewrite !List.filter_app. simpl. by rewrite !app_nil_r.
  - apply dict_get_None in Hd. done.
Qed.

(** *** Finalizing an operator *)

Lemma destroyed_field_id F : field_finalized F = true -> destroyed_field F = F.
Proof. destruct F as [g d f]. simpl. by intros ->. Qed.

Lemma destroyed_regrid_id (R : Regrid W) :
  regrid_finalized R = true -> destroyed_regrid R = R.
Proof. destruct R as [a b w f]. simpl. by intros ->. Qed.

(** [esmf_regrid_finalize] always completes on an operator of the store; it
    sets the three flags and writes to no array. *)
Lemma finalize_run (s : State val W) r (R : Regrid W) F1 F2
    (A1 A2 : np.ndarray val) :
  operator_at s r R F1 F2 A1 A2 ->
  exists s',
    esmf_regrid_finalize r s = (Ok tt, s')
    /\ arrays s' = arrays s /\ grids s' = grids s /\ files s' = files s
    /\ operator_at s' r (destroyed_regrid R) (destroyed_field F1)
                   (destroyed_field F2) A1 A2.
Proof.
  intros [HR HF1 HF2 Hf HA1 HA2 Hb]. unfold esmf_regrid_finalize.
  munfold. simpl. rewrite HR. simpl. rewrite HF1. simpl.
  destruct (field_finalized F1) eqn:E1;
    destruct (field_finalized F2) eqn:E2;
    destruct (regrid_finalized R) eqn:E3;
    repeat (simpl; unfold ret, raise;
            first [ rewrite HR | rewrite HF1 | rewrite HF2
                  | rewrite lookup_insert_eq
                  | rewrite lookup_insert_ne by done
                  | rewrite E1 | rewrite E2 | rewrite E3 ]).
  all: eexists; split; [reflexivity|]; simpl.
  all: repeat split; simpl;
    repeat first [ rewrite lookup_insert_eq
                 | rewrite lookup_insert_ne by done ];
    rewrite ?destroyed_field_id, ?destroyed_regrid_id by done; try done.
Qed.

(** *** Operators across calls *)

Lemma operator_at_entry (s : State val W) r (R : Regrid W) F1 F2
    (A1 A2 indata : np.ndarray val) :
  operator_at s r R F1 F2 A1 A2 ->
  operator_at (at_native_entry F1 A1 indata s) r R F1 F2 (assigned A1 indata) A2.
Proof.
  intros [HR HF1 HF2 Hf HA1 HA2 Hb]. constructor; simpl; try done.
  - apply lookup_insert_eq.
  - by rewrite lookup_insert_ne.
Qed.

Lemma operator_at_filled (s : State val W) r (R : Regrid W) F1 F2
    (A1 A2 : np.ndarray val) out :
  operator_at s r R F1 F2 A1 A2 ->
  operator_at (filled (field_data F2) out s) r R F1 F2 A1
              (np.mk_ndarray (np.shape A2) (np.f_contiguous A2) out).
Proof.
  intros [HR HF1 HF2 Hf HA1 HA2 Hb]. constructor; simpl; try done.
  - by rewrite lookup_alter_ne.
  - by rewrite lookup_alter_eq, HA2.
Qed.

Lemma operator_at_warned (s : State val W) r (R : Regrid W) F1 F2
    (A1 A2 : np.ndarray val) ws :
  operator_at s r R F1 F2 A1 A2 ->
  operator_at (log_warnings ws s) r R F1 F2 A1 A2.
Proof. intros [HR HF1 HF2 Hf HA1 HA2 Hb]. by constructor. Qed.

(** C1, as the backend has it.  [esmf_regrid_apply] has no finalized check.
    On an operator whose three flags are set it does what it does on any
    other: unless numpy cannot broadcast the input, it writes the input into
    the source buffer and enters the native routine, and its outcome is the
    routine's, an error code or the destination buffer.  It raises nothing
    of its own: a failure is numpy's broadcast error, before the buffer is
    written, or the engine's, after. *)
Theorem apply_after_finalize (s : State val W) r (R : Regrid W) F1 F2
    (A1 A2 indata : np.ndarray val) :
  operator_at s r R F1 F2 A1 A2 ->
  all_finalized R F1 F2 = true ->
  (np.broadcastable (np.shape indata) (np.shape A1) = true ->
     arrays (esmf_regrid_apply E r indata s).2 !! field_data F1
     = Some (assigned A1 indata)
     /\ esmf_regrid_apply E r indata s
        = match field_regrid E (memory (at_native_entry F1 A1 indata s)) r
                             (regrid_srcfield R) (regrid_dstfield R) with
          | inl rc => (Raise (NativeError rc), at_native_entry F1 A1 indata s)
          | inr out => (Ok (field_data F2),
                        filled (field_data F2) out (at_native_entry F1 A1 indata s))
          end)
  /\ (np.broadcastable (np.shape indata) (np.shape A1) = false ->
        esmf_regrid_apply E r indata s
        = (Raise (BroadcastError (np.shape indata) (np.shape A1)),
           log_warnings (contiguity_warnings [indata]) s))
  /\ (forall e s',
        esmf_regrid_apply E r indata s = (Raise e, s') ->
        e = BroadcastError (np.shape indata) (np.shape A1)
        \/ exists rc, e = NativeError rc).
Proof.
  intros Hop _. rewrite (apply_run _ _ _ _ _ _ _ indata Hop).
  pose proof (operator_at_entry _ _ _ _ _ _ _ indata Hop) as Hent.
  split; [|split].
  - intros ->. cbv zeta.
    destruct (field_regrid E _ r (regrid_srcfield R) (regrid_dstfield R)) as [rc|out].
    + split; [|reflexivity]. simpl. apply lookup_insert_eq.
    + split; [|reflexivity].
      apply (operator_at_filled _ _ _ _ _ _ _ out) in Hent. apply Hent.
  - by intros ->.
  - intros e s'. destruct (np.broadcastable _ _); cbv zeta.
    + destruct (field_regrid E _ r _ _) as [rc|out]; [|done].
      intros [= <- _]. right. by exists rc.
    + intros [= <- _]. by left.
Qed.

(** C2, as the backend has it.  An operator just built has buffers of
    shape [(Nx_src, Ny_src) + extra_dims] and [(Nx_dst, Ny_dst) +
    extra_dims].  On a live operator [esmf_regrid_apply] accepts exactly
    the inputs that numpy can broadcast to the source shape, among them
    every input of that very shape; it then returns an array of the
    destination shape.  Any other input makes numpy raise its broadcast
    error.  Either way the operator stays as it was, so the same holds for
    the next call. *)
Theorem apply_shape_contract :
  serves_live E ->
  (forall (s0 : State val W) sg dg SG DG method filename extra_dims r s,
     grids s0 !! sg = Some SG -> grids s0 !! dg = Some DG ->
     esmf_regrid_build E sg dg method filename extra_dims s0 = (Ok r, s) ->
     live_operator s r (grid_max_index SG ++ default [] extra_dims)
                       (grid_max_index DG ++ default [] extra_dims))
  /\ (forall (s : State val W) r src_shape dst_shape (indata : np.ndarray val),
        live_operator s r src_shape dst_shape ->
        if np.broadcastable (np.shape indata) src_shape
        then exists o A s',
               esmf_regrid_apply E r indata s = (Ok o, s')
               /\ arrays s' !! o = Some A /\ np.shape A = dst_shape
               /\ live_operator s' r src_shape dst_shape
        else exists s',
               esmf_regrid_apply E r indata s
               = (Raise (BroadcastError (np.shape indata) src_shape), s')
               /\ live_operator s' r src_shape dst_shape)
  /\ (forall sh, np.broadcastable sh sh = true).
Proof.
  intros Hserve. split; [|split].
  - intros. by eapply build_live_operator.
  - intros s r src_shape dst_shape indata (R & F1 & F2 & A1 & A2 & Hop & Hlive & <- & <-).
    rewrite (apply_run _ _ _ _ _ _ _ indata Hop).
    pose proof (operator_at_entry _ _ _ _ _ _ _ indata Hop) as Hent.
    destruct (np.broadcastable (np.shape indata) (np.shape A1)); cbv zeta.
    + destruct (Hserve (memory (at_native_entry F1 A1 indata s)) r
                  (regrid_srcfield R) (regrid_dstfield R) R F1 F2)
        as [out Hout]; try done; try apply Hop.
      rewrite Hout.
      apply (operator_at_filled _ _ _ _ _ _ _ out) in Hent.
      eexists _, _, _. split; [reflexivity|].
      split; [apply Hent|]. split; [reflexivity|].
      by eexists _, _, _, _, _.
    + eexists. split; [reflexivity|].
      exists R, F1, F2, A1, A2. split; [|done].
      by apply operator_at_warned.
  - apply broadcastable_refl.
Qed.

(** C3, as the backend has it.  The array [esmf_regrid_apply] returns is
    the data buffer of the operator's destination field itself, not a copy.
    A later successful call on the operator returns the same array and
    leaves in it the engine's output for the later input.
    [esmf_regrid_finalize] completes and writes to no array. *)
Theorem apply_returns_destination_buffer (s : State val W) r (R : Regrid W)
    F1 F2 (A1 A2 indata : np.ndarray val) o s' :
  operator_at s r R F1 F2 A1 A2 ->
  esmf_regrid_apply E r indata s = (Ok o, s') ->
  o = field_data F2
  /\ (forall later o2 s2,
        esmf_regrid_apply E r later s' = (Ok o2, s2) ->
        o2 = o
        /\ exists out,
             field_regrid E (memory (at_native_entry F1 (assigned A1 indata) later s'))
                          r (regrid_srcfield R) (regrid_dstfield R) = inr out
             /\ arrays s2 !! o
                = Some (np.mk_ndarray (np.shape A2) (np.f_contiguous A2) out))
  /\ (exists s2,
        esmf_regrid_finalize r s' = (Ok tt, s2) /\ arrays s2 = arrays s').
Proof.
  intros Hop. rewrite (apply_run _ _ _ _ _ _ _ indata Hop).
  pose proof (operator_at_entry _ _ _ _ _ _ _ indata Hop) as Hent.
  destruct (np.broadcastable (np.shape indata) (np.shape A1)); [|done].
  cbv zeta.
  destruct (field_regrid E _ r (regrid_srcfield R) (regrid_dstfield R))
    as [rc|out]; [done|].
  intros [= <- <-].
  apply (operator_at_filled _ _ _ _ _ _ _ out) in Hent.
  split; [reflexivity|]. split.
  - intros later o2 s2. rewrite (apply_run _ _ _ _ _ _ _ later Hent).
    pose proof (operator_at_entry _ _ _ _ _ _ _ later Hent) as Hent2.
    simpl np.shape.
    destruct (np.broadcastable (np.shape later) (np.shape A1)); [|done].
    cbv zeta.
    destruct (field_regrid E _ r (regrid_srcfield R) (regrid_dstfield R))
      as [rc|out2] eqn:Hcall; [done|].
    intros [= <- <-]. split; [reflexivity|]. exists out2. split; [reflexivity|].
    apply (operator_at_filled _ _ _ _ _ _ _ out2) in Hent2. apply Hent2.
  - destruct (finalize_run _ _ _ _ _ _ _ Hent) as (s2 & Hfin & Harr & _).
    by exists s2.
Qed.

(** *** Grids and corners *)

(** C8. For two-dimensional [lon] and [lat] of one shape, [esmf_grid]
    returns a grid whose [max_index] is that shape and whose centre
    coordinate arrays have that shape and hold [lon] and [lat] (assigned
    by broadcasting, which for an array with as many elements as its shape
    says is a plain copy).  When [lon] or [lat] is not two-dimensional or
    their shapes differ, it raises an [AssertionError] (the backend's shape
    error) and creates nothing. *)
Theorem esmf_grid_shape_contract (lon lat : np.ndarray val) (s : State val W) :
  (np.ndim lon = 2 -> np.ndim lat = 2 -> np.shape lon = np.shape lat ->
     exists g s' G a0 a1,
       esmf_grid E lon lat s = (Ok g, s')
       /\ grids s' !! g = Some G
       /\ grid_max_index G = np.shape lon
       /\ grid_coords G !! StaggerLoc.CENTER = Some (a0, a1)
       /\ arrays s' !! a0
          = Some (np.mk_ndarray (np.shape lon) true
                                (np.broadcast_to lon (np.shape lon)))
       /\ arrays s' !! a1
          = Some (np.mk_ndarray (np.shape lat) true
                                (np.broadcast_to lat (np.shape lat))))
  /\ (np.ndim lon <> 2 \/ np.ndim lat <> 2 \/ np.shape lon <> np.shape lat ->
        esmf_grid E lon lat s
        = (Raise (AssertionError
                    (if np.ndim lon =? 2 then "lon and lat must have same shape"
                     else "Input grid must be 2D array")),
           log_warnings (contiguity_warnings [lon; lat]) s))
  /\ (length (np.data lon) = np.size (np.shape lon) ->
      np.broadcast_to lon (np.shape lon) = np.data lon).
Proof.
  split; [|split; [|apply broadcast_to_same_shape]].
  - intros Hnd _ Hsh. unfold esmf_grid.
    rewrite (bind_run _ _ _ _ _ (for_warn_run [lon; lat] s)).
    rewrite Hnd. simpl. rewrite bool_decide_eq_true_2 by done.
    munfold. unfold ESMF.stagger_shape. simpl. repeat mstep.
    rewrite <- Hsh. repeat mstep.
    eexists _, _, _, _, _. split; [reflexivity|]. simpl.
    split; [apply lookup_insert_eq|]. split; [reflexivity|].
    split; [apply lookup_insert_eq|].
    split; [by rewrite lookup_insert_ne by lia; apply lookup_insert_eq|].
    apply lookup_insert_eq.
  - intros Hbad. unfold esmf_grid.
    rewrite (bind_run _ _ _ _ _ (for_warn_run [lon; lat] s)).
    destruct (Nat.eqb_spec (np.ndim lon) 2) as [Hnd|Hnd]; [|reflexivity].
    simpl. rewrite bool_decide_eq_false_2; [reflexivity|].
    intros Hsh. destruct Hbad as [?|[Hl|?]]; try done.
    apply Hl. unfold np.ndim in *. by rewrite <- Hsh.
Qed.

(** What [add_corner] does when a shape check fails: the warnings are out
    and nothing else has happened. *)
Lemma add_corner_fail (s : State val W) g G (lon_b lat_b : np.ndarray val) :
  grids s !! g = Some G ->
  np.ndim lon_b <> 2 \/ np.shape lon_b <> np.shape lat_b
  \/ np.shape lon_b <> S <$> grid_max_index G ->
  exists msg,
    add_corner E g lon_b lat_b s
    = (Raise (AssertionError msg),
       log_warnings (contiguity_warnings [lon_b; lat_b]) s).
Proof.
  intros HG Hbad. unfold add_corner.
  rewrite (bind_run _ _ _ _ _ (for_warn_run [lon_b; lat_b] s)).
  destruct (Nat.eqb_spec (np.ndim lon_b) 2) as [Hnd|Hnd]; [|by eexists].
  simpl. destruct (decide (np.shape lon_b = np.shape lat_b)) as [Hsh|Hsh].
  2:{ rewrite bool_decide_eq_false_2 by done. by eexists. }
  rewrite bool_decide_eq_true_2 by done. munfold. simpl. rewrite HG. simpl.
  unfold np.array_equal. rewrite bool_decide_eq_false_2; [by eexists|].
  intros Heq. by destruct Hbad as [?|[?|?]].
Qed.

(** What [add_corner] does when the shapes are right. *)
Lemma add_corner_ok (s : State val W) g G (lon_b lat_b : np.ndarray val) :
  grids s !! g = Some G -> coords_allocated s G ->
  np.ndim lon_b = 2 -> np.shape lon_b = np.shape lat_b ->
  np.shape lon_b = S <$> grid_max_index G ->
  exists s', add_corner E g lon_b lat_b s = (Ok tt, s').
Proof.
  intros HG Hco Hnd Hsh Hmax. unfold add_corner.
  rewrite (bind_run _ _ _ _ _ (for_warn_run [lon_b; lat_b] s)).
  rewrite Hnd. simpl. rewrite bool_decide_eq_true_2 by done.
  munfold. simpl. rewrite HG. simpl.
  unfold np.array_equal. rewrite bool_decide_eq_true_2 by done. simpl.
  rewrite HG. simpl.
  destruct (grid_coords G !! StaggerLoc.CORNER) as [[a0 a1]|] eqn:Hc; simpl.
  - destruct (Hco _ _ _ Hc) as (A0 & A1 & HA0 & HA1 & Hs0 & Hs1).
    unfold ESMF.stagger_shape in Hs0, Hs1. simpl in Hs0, Hs1.
    rewrite HG. simpl. rewrite Hc. simpl. rewrite HG. simpl. rewrite Hc. simpl.
    rewrite HA0. simpl. rewrite Hs0, <- Hmax, broadcastable_refl. simpl.
    destruct (decide (a0 = a1)) as [<-|Hne].
    + rewrite lookup_insert_eq. simpl. rewrite <- Hsh, broadcastable_refl.
      by eexists.
    + rewrite lookup_insert_ne by done. rewrite HA1. simpl.
      rewrite Hs1, <- Hmax, <- Hsh, broadcastable_refl. by eexists.
  - unfold ESMF.stagger_shape. simpl. repeat mstep.
    rewrite <- Hmax. repeat mstep. rewrite <- Hsh. repeat mstep. by eexists.
Qed.

(** C7. On a grid with centre shape [(Nx, Ny)], [add_corner] succeeds
    exactly when [lon_b] and [lat_b] are two-dimensional, of one shape, and
    that shape is [(Nx+1, Ny+1)]; otherwise it raises an [AssertionError]
    (the backend's shape error). *)
Theorem add_corner_shape_contract (s : State val W) g G Nx Ny
    (lon_b lat_b : np.ndarray val) :
  grids s !! g = Some G -> grid_max_index G = [Nx; Ny] ->
  coords_allocated s G ->
  ((exists s', add_corner E g lon_b lat_b s = (Ok tt, s'))
   <-> np.ndim lon_b = 2 /\ np.ndim lat_b = 2
       /\ np.shape lon_b = np.shape lat_b
       /\ np.shape lon_b = [S Nx; S Ny])
  /\ (~ (np.ndim lon_b = 2 /\ np.ndim lat_b = 2
         /\ np.shape lon_b = np.shape lat_b
         /\ np.shape lon_b = [S Nx; S Ny]) ->
      exists msg s',
        add_corner E g lon_b lat_b s = (Raise (AssertionError msg), s')).
Proof.
  intros HG Hmax Hco.
  assert (Hfail :
    ~ (np.ndim lon_b = 2 /\ np.ndim lat_b = 2
       /\ np.shape lon_b = np.shape lat_b /\ np.shape lon_b = [S Nx; S Ny]) ->
    exists msg s',
      add_corner E g lon_b lat_b s = (Raise (AssertionError msg), s')).
  { intros Hn.
    destruct (add_corner_fail s g G lon_b lat_b HG) as [msg Hmsg]; [|by eauto].
    rewrite Hmax. simpl.
    destruct (decide (np.ndim lon_b = 2)) as [Hnd|]; [|by left].
    destruct (decide (np.shape lon_b = np.shape lat_b)) as [Hsh|]; [|by right; left].
    right; right. intros Heq. apply Hn. repeat split; try done.
    unfold np.ndim in *. by rewrite <- Hsh. }
  split; [split|exact Hfail].
  - intros [s' Hok].
    destruct (decide (np.ndim lon_b = 2 /\ np.ndim lat_b = 2
                      /\ np.shape lon_b = np.shape lat_b
                      /\ np.shape lon_b = [S Nx; S Ny])) as [|Hn]; [done|].
    destruct (Hfail Hn) as (msg & s'' & Hraise). congruence.
  - intros (Hnd & _ & Hsh & Heq). apply (add_corner_ok s g G); try done.
    by rewrite Hmax.
Qed.

(** C10. When [add_corner] is given corner arrays that violate a shape
    precondition, it raises its [AssertionError] before the grid is touched:
    the store after the call is the store before it with the contiguity
    warnings added, so no corner storage is attached, no array is written
    and the native library has not been entered. *)
Theorem add_corner_atomic (s : State val W) g G (lon_b lat_b : np.ndarray val) :
  grids s !! g = Some G ->
  np.ndim lon_b <> 2 \/ np.shape lon_b <> np.shape lat_b
  \/ np.shape lon_b <> S <$> grid_max_index G ->
  exists msg s',
    add_corner E g lon_b lat_b s = (Raise (AssertionError msg), s')
    /\ s' = log_warnings (contiguity_warnings [lon_b; lat_b]) s
    /\ grids s' = grids s /\ arrays s' = arrays s /\ calls s' = calls s
    /\ grids s' !! g = Some G.
Proof.
  intros HG Hbad.
  destruct (add_corner_fail s g G lon_b lat_b HG Hbad) as [msg Hmsg].
  exists msg, (log_warnings (contiguity_warnings [lon_b; lat_b]) s).
  by repeat split.
Qed.

(** *** Further properties of the grid functions *)

Lemma state_eq (s1 s2 : State val W) :
  arrays s1 = arrays s2 -> grids s1 = grids s2 -> fields s1 = fields s2 ->
  regrids s1 = regrids s2 -> next s1 = next s2 -> files s1 = files s2 ->
  warned s1 = warned s2 -> calls s1 = calls s2 -> s1 = s2.
Proof. destruct s1, s2. simpl. by intros -> -> -> -> -> -> -> ->. Qed.

(** What [esmf_grid] does on valid input. *)
Lemma esmf_grid_run (lon lat : np.ndarray val) (s : State val W) :
  np.ndim lon = 2 -> np.shape lon = np.shape lat ->
  esmf_grid E lon lat s = (Ok (next s), grid_made lon lat s).
Proof.
  intros Hnd Hsh. unfold esmf_grid.
  rewrite (bind_run _ _ _ _ _ (for_warn_run [lon; lat] s)).
  rewrite Hnd. simpl. rewrite bool_decide_eq_true_2 by done.
  munfold. unfold ESMF.stagger_shape. simpl. repeat mstep.
  rewrite <- Hsh. repeat mstep.
  f_equal. apply state_eq; simpl; try reflexivity.
  - unfold assigned. simpl. apply map_eq. intros i.
    rewrite !lookup_insert. repeat case_decide; try lia; reflexivity.
  - apply map_eq. intros i.
    rewrite !lookup_insert. repeat case_decide; try lia; reflexivity.
Qed.

(** What [add_corner] does on valid input for a grid without corner
    storage. *)
Lemma add_corner_run (s : State val W) g G (lon_b lat_b : np.ndarray val) :
  grids s !! g = Some G -> grid_coords G !! StaggerLoc.CORNER = None ->
  np.ndim lon_b = 2 -> np.shape lon_b = np.shape lat_b ->
  np.shape lon_b = S <$> grid_max_index G ->
  add_corner E g lon_b lat_b s = (Ok tt, corners_attached g G lon_b lat_b s).
Proof.
  intros HG Hc Hnd Hsh Hmax. unfold add_corner.
  rewrite (bind_run _ _ _ _ _ (for_warn_run [lon_b; lat_b] s)).
  rewrite Hnd. simpl. rewrite bool_decide_eq_true_2 by done.
  munfold. simpl. rewrite HG. simpl.
  unfold np.array_equal. rewrite bool_decide_eq_true_2 by done. simpl.
  rewrite HG. simpl. rewrite Hc. simpl.
  unfold ESMF.stagger_shape. simpl. repeat mstep.
  rewrite <- Hmax. repeat mstep. rewrite <- Hsh. repeat mstep.
  f_equal. apply state_eq; simpl; try reflexivity.
  - unfold assigned. simpl. rewrite <- Hmax. apply map_eq. intros i.
    rewrite !lookup_insert. repeat case_decide; try lia; reflexivity.
  - rewrite orb_true_r. apply map_eq. intros i.
    rewrite !lookup_insert. repeat case_decide; try lia; reflexivity.
Qed.

(** X1. On two-dimensional [lon] and [lat] of one shape, [esmf_grid]
    creates one grid, without corners and with centre storage only, and its
    two coordinate arrays; it modifies no grid and no array that was there
    before, and touches no field, operator or file. *)
Theorem esmf_grid_creates_only (lon lat : np.ndarray val) (s : State val W) :
  np.ndim lon = 2 -> np.shape lon = np.shape lat ->
  exists s',
    esmf_grid E lon lat s = (Ok (next s), s')
    /\ grids s' !! next s
       = Some (mk_Grid (np.shape lon) false
                 {[StaggerLoc.CENTER := (S (next s), S (S (next s)))]})
    /\ (forall g, g <> next s -> grids s' !! g = grids s !! g)
    /\ (forall a, a < next s -> arrays s' !! a = arrays s !! a)
    /\ fields s' = fields s /\ regrids s' = regrids s /\ files s' = files s.
Proof.
  intros Hnd Hsh. exists (grid_made lon lat s).
  split; [by apply esmf_grid_run|]. simpl.
  split; [apply lookup_insert_eq|].
  split; [by intros g Hg; rewrite lookup_insert_ne|].
  split; [|done].
  intros a Ha. by rewrite !lookup_insert_ne by lia.
Qed.

(** X2. On a grid without corner storage, [add_corner] with corner arrays
    of the right shape marks the grid as having corners and stores the two
    arrays in fresh corner storage of shape [max_index + 1]; the cell
    counts and the storage of every other stagger location stay as they
    were, and so do all other grids and all arrays allocated before. *)
Theorem add_corner_attaches (s : State val W) g G (lon_b lat_b : np.ndarray val) :
  grids s !! g = Some G -> grid_coords G !! StaggerLoc.CORNER = None ->
  np.ndim lon_b = 2 -> np.shape lon_b = np.shape lat_b ->
  np.shape lon_b = S <$> grid_max_index G ->
  exists s' G',
    add_corner E g lon_b lat_b s = (Ok tt, s')
    /\ grids s' !! g = Some G'
    /\ grid_has_corners G' = true
    /\ grid_max_index G' = grid_max_index G
    /\ grid_coords G' !! StaggerLoc.CORNER = Some (next s, S (next s))
    /\ (forall st, st <> StaggerLoc.CORNER ->
          grid_coords G' !! st = grid_coords G !! st)
    /\ arrays s' !! next s
       = Some (np.mk_ndarray (np.shape lon_b) true
                 (np.broadcast_to lon_b (np.shape lon_b)))
    /\ arrays s' !! S (next s)
       = Some (np.mk_ndarray (np.shape lat_b) true
                 (np.broadcast_to lat_b (np.shape lat_b)))
    /\ (forall a, a < next s -> arrays s' !! a = arrays s !! a)
    /\ (forall g', g' <> g -> grids s' !! g' = grids s !! g').
Proof.
  intros HG Hc Hnd Hsh Hmax.
  eexists (corners_attached g G lon_b lat_b s), _.
  split; [by apply add_corner_run|]. simpl.
  split; [apply lookup_insert_eq|]. simpl.
  split; [done|]. split; [done|].
  split; [apply lookup_insert_eq|].
  split; [by intros st Hst; rewrite lookup_insert_ne|].
  unfold assigned. simpl. rewrite <- Hmax.
  split; [by rewrite lookup_insert_ne by lia; rewrite lookup_insert_eq|].
  split; [by rewrite lookup_insert_eq, <- Hsh|].
  split; [by intros a Ha; rewrite !lookup_insert_ne by lia|].
  by intros g' Hg'; rewrite lookup_insert_ne.
Qed.

(** X3. A grid fresh from [esmf_grid] cannot serve a conservative build;
    after [add_corner] with arrays one point larger in each dimension it
    can, as source and as destination, unless a file stands at the given
    name. *)
Theorem corners_enable_conservative (lon lat lon_b lat_b : np.ndarray val)
    (s : State val W) filename extra_dims :
  np.ndim lon = 2 -> np.shape lon = np.shape lat ->
  np.shape lon_b = np.shape lat_b -> np.shape lon_b = S <$> np.shape lon ->
  exists s1 s2,
    esmf_grid E lon lat s = (Ok (next s), s1)
    /\ esmf_regrid_build E (next s) (next s) "conservative" filename extra_dims s1
       = (Raise (ValueError source_corners_msg), s1)
    /\ add_corner E (next s) lon_b lat_b s1 = (Ok tt, s2)
    /\ (file_taken filename s = false ->
        exists r s3,
          esmf_regrid_build E (next s) (next s) "conservative" filename
                            extra_dims s2 = (Ok r, s3)).
Proof.
  intros Hnd Hsh Hshb Hmax.
  assert (Hndb : np.ndim lon_b = 2).
  { unfold np.ndim in *. by rewrite Hmax, length_fmap. }
  exists (grid_made lon lat s).
  eexists (corners_attached (next s) _ lon_b lat_b (grid_made lon lat s)).
  assert (HG : grids (grid_made lon lat s) !! next s
               = Some (mk_Grid (np.shape lon) false
                         {[StaggerLoc.CENTER := (S (next s), S (S (next s)))]}))
    by apply lookup_insert_eq.
  split; [by apply esmf_grid_run|]. split.
  { by rewrite (build_run _ _ _ _ _ _ _ _ HG HG). }
  split.
  { by apply (add_corner_run _ _ _ _ _ HG). }
  intros Hfree.
  match goal with
  | |- context [corners_attached ?g ?G ?a ?b ?s0] =>
      assert (HG2 : grids (corners_attached g G a b s0) !! g
                    = Some (mk_Grid (grid_max_index G) true
                              (<[StaggerLoc.CORNER := (next s0, S (next s0))]>
                                 (grid_coords G))))
        by apply lookup_insert_eq
  end.
  rewrite (build_run _ _ _ _ _ _ _ _ HG2 HG2). simpl.
  unfold file_taken in *. simpl. rewrite Hfree. eauto.
Qed.

(** *** Further properties of operators *)

(** What [esmf_regrid_finalize] does on an operator of the store. *)
Lemma finalize_store_run (s : State val W) r (R : Regrid W) F1 F2
    (A1 A2 : np.ndarray val) :
  operator_at s r R F1 F2 A1 A2 ->
  esmf_regrid_finalize r s = (Ok tt, finalized_store r R F1 F2 s).
Proof.
  intros [HR HF1 HF2 Hf HA1 HA2 Hb]. unfold esmf_regrid_finalize.
  munfold. simpl. rewrite HR. simpl. rewrite HF1. simpl.
  unfold finalized_store, destroy_calls.
  destruct (field_finalized F1) eqn:E1;
    destruct (field_finalized F2) eqn:E2;
    destruct (regrid_finalized R) eqn:E3;
    repeat (simpl; unfold ret, raise;
            first [ rewrite HR | rewrite HF1 | rewrite HF2
                  | rewrite lookup_insert_eq
                  | rewrite lookup_insert_ne by done
                  | rewrite E1 | rewrite E2 | rewrite E3 ]).
  all: f_equal; apply state_eq; simpl; try reflexivity;
    rewrite <- ?app_assoc, ?app_nil_r; try reflexivity.
  all: apply map_eq; intros i; rewrite !lookup_insert;
    repeat case_decide; subst;
    rewrite ?destroyed_field_id, ?destroyed_regrid_id by done;
    try done; try congruence.
Qed.

(** What a successful [esmf_regrid_build] leaves: the operator is object
    [next s + 4], over the fields [next s + 1] and [next s + 3], whose
    buffers are the objects [next s] and [next s + 2]. *)
Lemma build_operator_at (s : State val W) sg dg SG DG method filename
    extra_dims r s' :
  grids s !! sg = Some SG -> grids s !! dg = Some DG ->
  esmf_regrid_build E sg dg method filename extra_dims s = (Ok r, s') ->
  exists rm,
    dict_get method_dict method = Some rm
    /\ r = S (S (S (S (next s))))
    /\ s' = with_regrid E rm filename (S (next s)) (S (S (S (next s))))
                        (with_fields E sg dg SG DG extra_dims s)
    /\ file_taken filename s = false
    /\ lacks_corners method SG = false /\ lacks_corners method DG = false.
Proof.
  intros HSG HDG. rewrite (build_run _ _ _ _ _ _ _ _ HSG HDG).
  destruct (dict_get method_dict method) as [rm|]; [|done].
  destruct (lacks_corners method SG); [done|].
  destruct (lacks_corners method DG); [done|].
  cbv zeta. destruct (file_taken filename s); [done|].
  intros [= <- <-]. by exists rm.
Qed.

Lemma built_operator_at (s : State val W) sg dg SG DG rm filename extra_dims :
  let s' := with_regrid E rm filename (S (next s)) (S (S (S (next s))))
                        (with_fields E sg dg SG DG extra_dims s) in
  exists R F1 F2 A1 A2,
    operator_at s' (S (S (S (S (next s))))) R F1 F2 A1 A2
    /\ regrids s' !! S (S (S (S (next s)))) = Some R
    /\ none_finalized R F1 F2 = true
    /\ field_grid F1 = sg /\ field_grid F2 = dg
    /\ field_data F1 = next s /\ field_data F2 = S (S (next s))
    /\ np.f_contiguous A1 = true /\ np.f_contiguous A2 = true
    /\ regrid_weights R
       = regrid_store E
           (memory (log_call RegridStore (with_fields E sg dg SG DG extra_dims s)))
           (regrid_srcfield R) (regrid_dstfield R) rm.
Proof.
  eexists _, _, _, _, _. split.
  { constructor.
    - simpl. apply lookup_insert_eq.
    - simpl. rewrite lookup_insert_ne by lia. apply lookup_insert_eq.
    - simpl. apply lookup_insert_eq.
    - simpl. lia.
    - simpl. rewrite lookup_insert_ne by lia. apply lookup_insert_eq.
    - simpl. apply lookup_insert_eq.
    - simpl. lia. }
  simpl. split; [apply lookup_insert_eq|]. by repeat split.
Qed.

(** Where [esmf_regrid_apply] writes. *)
Lemma apply_run_frame (s : State val W) r (R : Regrid W) F1 F2
    (A1 A2 indata : np.ndarray val) res s' :
  operator_at s r R F1 F2 A1 A2 ->
  esmf_regrid_apply E r indata s = (res, s') ->
  grids s' = grids s /\ fields s' = fields s /\ regrids s' = regrids s
  /\ files s' = files s /\ next s' = next s
  /\ (forall a, a <> field_data F1 -> a <> field_data F2 ->
        arrays s' !! a = arrays s !! a).
Proof.
  intros Hop. rewrite (apply_run _ _ _ _ _ _ _ indata Hop).
  destruct (np.broadcastable (np.shape indata) (np.shape A1)); cbv zeta.
  - destruct (field_regrid E _ r (regrid_srcfield R) (regrid_dstfield R))
      as [rc|out]; intros [= <- <-]; simpl; repeat split; try done.
    + by intros a H1 H2; rewrite lookup_insert_ne.
    + by intros a H1 H2; rewrite lookup_alter_ne, lookup_insert_ne.
  - by intros [= <- <-].
Qed.

(** X4. [esmf_regrid_finalize] completes on every operator, whatever has
    been destroyed before: its three final assertions always hold.
    Afterwards the operator and its two fields are marked finalized; no
    array, grid or file has been written and no other field or operator has
    changed.  Only what was not yet destroyed is released. *)
Theorem finalize_completes (s : State val W) r (R : Regrid W) F1 F2
    (A1 A2 : np.ndarray val) :
  operator_at s r R F1 F2 A1 A2 ->
  exists s',
    esmf_regrid_finalize r s = (Ok tt, s')
    /\ regrids s' !! r = Some (destroyed_regrid R)
    /\ fields s' !! regrid_srcfield R = Some (destroyed_field F1)
    /\ fields s' !! regrid_dstfield R = Some (destroyed_field F2)
    /\ arrays s' = arrays s /\ grids s' = grids s /\ files s' = files s
    /\ (forall f, f <> regrid_srcfield R -> f <> regrid_dstfield R ->
          fields s' !! f = fields s !! f)
    /\ (forall r', r' <> r -> regrids s' !! r' = regrids s !! r')
    /\ calls s' = (calls s ++ destroy_calls R F1 F2)%list.
Proof.
  intros Hop. exists (finalized_store r R F1 F2 s).
  split; [by eapply finalize_store_run|]. simpl.
  split; [apply lookup_insert_eq|].
  split.
  { rewrite lookup_insert_ne by (symmetry; apply Hop). apply lookup_insert_eq. }
  split; [apply lookup_insert_eq|].
  do 3 (split; [reflexivity|]).
  split; [by intros f H1 H2; rewrite !lookup_insert_ne|].
  split; [by intros r' Hr; rewrite lookup_insert_ne|reflexivity].
Qed.

(** X5. Finalizing twice is harmless: a second [esmf_regrid_finalize] on
    the same operator completes and leaves the store exactly as the first
    left it, releasing nothing again. *)
Theorem finalize_idempotent (s : State val W) r (R : Regrid W) F1 F2
    (A1 A2 : np.ndarray val) s' :
  operator_at s r R F1 F2 A1 A2 ->
  esmf_regrid_finalize r s = (Ok tt, s') ->
  esmf_regrid_finalize r s' = (Ok tt, s').
Proof.
  intros Hop Hfin.
  destruct (finalize_run _ _ _ _ _ _ _ Hop) as (s'' & Hfin' & _ & _ & _ & Hop').
  assert (s'' = s') by congruence. subst s''.
  rewrite (finalize_store_run _ _ _ _ _ _ _ Hop'). f_equal.
  rewrite (finalize_store_run _ _ _ _ _ _ _ Hop) in Hfin.
  injection Hfin as <-.
  apply state_eq; simpl; try reflexivity.
  - apply map_eq. intros i. rewrite !lookup_insert.
    repeat case_decide; try done; congruence.
  - apply map_eq. intros i. rewrite !lookup_insert.
    repeat case_decide; try done; congruence.
  - unfold destroy_calls. simpl. by rewrite app_nil_r.
Qed.

(** X6. Whatever its outcome, [esmf_regrid_apply] writes to the operator's
    two data buffers only: every other array, every grid, field, operator
    (flags included) and file is as before, and nothing is allocated. *)
Theorem apply_frame (s : State val W) r (R : Regrid W) F1 F2
    (A1 A2 indata : np.ndarray val) res s' :
  operator_at s r R F1 F2 A1 A2 ->
  esmf_regrid_apply E r indata s = (res, s') ->
  grids s' = grids s /\ fields s' = fields s /\ regrids s' = regrids s
  /\ files s' = files s /\ next s' = next s
  /\ (forall a, a <> field_data F1 -> a <> field_data F2 ->
        arrays s' !! a = arrays s !! a).
Proof. apply apply_run_frame. Qed.

(** X7. An input of exactly the source buffer's shape, with as many
    elements as the shape says, is copied into the source buffer element by
    element; the buffer keeps its own memory layout.  This happens before
    the engine is entered, so it holds whatever the engine answers. *)
Theorem apply_copies_input (s : State val W) r (R : Regrid W) F1 F2
    (A1 A2 indata : np.ndarray val) :
  operator_at s r R F1 F2 A1 A2 ->
  np.shape indata = np.shape A1 ->
  length (np.data indata) = np.size (np.shape indata) ->
  arrays (esmf_regrid_apply E r indata s).2 !! field_data F1
  = Some (np.mk_ndarray (np.shape A1) (np.f_contiguous A1) (np.data indata)).
Proof.
  intros Hop Hsh Hlen. rewrite (apply_run _ _ _ _ _ _ _ indata Hop).
  rewrite Hsh, broadcastable_refl. cbv zeta.
  assert (Hcopy : assigned A1 indata
                  = np.mk_ndarray (np.shape A1) (np.f_contiguous A1) (np.data indata)).
  { unfold assigned. by rewrite <- Hsh, broadcast_to_same_shape. }
  destruct (field_regrid E _ r (regrid_srcfield R) (regrid_dstfield R))
    as [rc|out]; simpl.
  - by rewrite lookup_insert_eq, Hcopy.
  - rewrite lookup_alter_ne by (symmetry; apply Hop).
    by rewrite lookup_insert_eq, Hcopy.
Qed.

(** X8. [esmf_regrid_build] only borrows its grids: whatever its outcome,
    no grid has changed, no object allocated before has changed, and no
    file other than the one named has changed. *)
Theorem build_borrows_grids (s : State val W) sg dg SG DG method filename
    extra_dims res s' :
  grids s !! sg = Some SG -> grids s !! dg = Some DG ->
  esmf_regrid_build E sg dg method filename extra_dims s = (res, s') ->
  grids s' = grids s
  /\ (forall a, a < next s -> arrays s' !! a = arrays s !! a)
  /\ (forall f, f < next s -> fields s' !! f = fields s !! f)
  /\ (forall r, r < next s -> regrids s' !! r = regrids s !! r)
  /\ (forall p, filename <> Some p -> files s' !! p = files s !! p).
Proof.
  intros HSG HDG. rewrite (build_run _ _ _ _ _ _ _ _ HSG HDG).
  destruct (dict_get method_dict method) as [rm|]; [|by intros [= <- <-]].
  destruct (lacks_corners method SG); [by intros [= <- <-]|].
  destruct (lacks_corners method DG); [by intros [= <- <-]|].
  cbv zeta. destruct (file_taken filename s); intros [= <- <-]; simpl.
  - split; [done|].
    split; [by intros a Ha; rewrite !lookup_insert_ne by lia|].
    split; [by intros f Hf; rewrite !lookup_insert_ne by lia|done].
  - split; [done|].
    split; [by intros a Ha; rewrite !lookup_insert_ne by lia|].
    split; [by intros f Hf; rewrite !lookup_insert_ne by lia|].
    split; [by intros r Hr; rewrite lookup_insert_ne by lia|].
    intros p Hp. destruct filename as [q|]; [|done].
    rewrite lookup_insert_ne; [done|]. by intros ->.
Qed.

(** X9. A successful [esmf_regrid_build] asks the engine for weights once,
    with the method its table gives for the name, and returns a live
    operator holding them.  The operator's source field is over the source
    grid and its destination field over the destination grid; the two
    fields and their two buffers are distinct objects, also when one grid
    serves as both.  When a file name is given, the file then holds the
    operator's weights. *)
Theorem build_makes_operator (s : State val W) sg dg SG DG method filename
    extra_dims r s' :
  grids s !! sg = Some SG -> grids s !! dg = Some DG ->
  esmf_regrid_build E sg dg method filename extra_dims s = (Ok r, s') ->
  exists rm R F1 F2 A1 A2,
    dict_get method_dict method = Some rm
    /\ operator_at s' r R F1 F2 A1 A2
    /\ none_finalized R F1 F2 = true
    /\ field_grid F1 = sg /\ field_grid F2 = dg
    /\ np.f_contiguous A1 = true /\ np.f_contiguous A2 = true
    /\ regrid_weights R
       = regrid_store E
           (memory (log_call RegridStore (with_fields E sg dg SG DG extra_dims s)))
           (regrid_srcfield R) (regrid_dstfield R) rm
    /\ weight_computations s' = S (weight_computations s)
    /\ (forall p, filename = Some p ->
          files s' !! p = Some (WeightFile (regrid_weights R))).
Proof.
  intros HSG HDG Hrun.
  destruct (build_operator_at _ _ _ _ _ _ _ _ _ _ HSG HDG Hrun)
    as (rm & Hrm & -> & -> & _ & _ & _).
  destruct (built_operator_at s sg dg SG DG rm filename extra_dims)
    as (R & F1 & F2 & A1 & A2 & Hop & HR & Hlive & H1 & H2 & _ & _ & Hc1 & Hc2 & Hw).
  exists rm, R, F1, F2, A1, A2.
  do 8 (split; [assumption|]). split.
  - unfold weight_computations. simpl.
    rewrite !List.filter_app, !length_app. simpl. lia.
  - intros p ->. simpl in *. rewrite lookup_insert_eq in HR.
    injection HR as <-. apply lookup_insert_eq.
Qed.

Lemma dict_get_elem {A} (d : dict A) k v : dict_get d k = Some v -> (k, v) ∈ d.
Proof.
  induction d as [|[k' v'] d IH]; simpl; [done|].
  destruct (String.eqb_spec k k') as [->|_].
  - intros [= ->]. left.
  - intros Hd. right. by apply IH.
Qed.

(** X10. The five method names select five different ESMF methods. *)
Theorem method_names_distinct (m1 m2 : string) (rm : RegridMethod.t) :
  dict_get method_dict m1 = Some rm -> dict_get method_dict m2 = Some rm ->
  m1 = m2.
Proof.
  intros H1%dict_get_elem H2%dict_get_elem. unfold method_dict in *.
  repeat (apply elem_of_cons in H1 as [H1|H1]; [injection H1 as -> ->|]);
    [..|by apply elem_of_nil in H1];
    repeat (apply elem_of_cons in H2 as [H2|H2];
            [injection H2 as ->; try discriminate; try reflexivity|]);
    by apply elem_of_nil in H2.
Qed.

(** X11. Operators do not share state: building a further operator leaves
    an existing one as it is, and so does every call of the new one. *)
Theorem operators_independent (s : State val W) r1 (R : Regrid W) F1 F2
    (A1 A2 : np.ndarray val) sg dg SG DG method filename extra_dims r2 s' :
  operator_at s r1 R F1 F2 A1 A2 ->
  r1 < next s -> regrid_srcfield R < next s -> regrid_dstfield R < next s ->
  field_data F1 < next s -> field_data F2 < next s ->
  grids s !! sg = Some SG -> grids s !! dg = Some DG ->
  esmf_regrid_build E sg dg method filename extra_dims s = (Ok r2, s') ->
  r2 <> r1
  /\ operator_at s' r1 R F1 F2 A1 A2
  /\ forall indata,
       operator_at (esmf_regrid_apply E r2 indata s').2 r1 R F1 F2 A1 A2.
Proof.
  intros [HR HF1 HF2 Hf HA1 HA2 Hb] Hr1 Hsrc Hdst Hd1 Hd2 HSG HDG Hrun.
  destruct (build_operator_at _ _ _ _ _ _ _ _ _ _ HSG HDG Hrun)
    as (rm & _ & -> & -> & _ & _ & _).
  destruct (built_operator_at s sg dg SG DG rm filename extra_dims)
    as (R2 & G1 & G2 & B1 & B2 & Hop2 & _ & _ & _ & _ & Hb1 & Hb2 & _).
  assert (Hop1 : operator_at
            (with_regrid E rm filename (S (next s)) (S (S (S (next s))))
               (with_fields E sg dg SG DG extra_dims s)) r1 R F1 F2 A1 A2).
  { constructor; simpl; try done; by rewrite !lookup_insert_ne by lia. }
  split; [lia|]. split; [exact Hop1|].
  intros indata.
  destruct (esmf_regrid_apply E _ indata _) as [res s2] eqn:Happly.
  destruct (apply_run_frame _ _ _ _ _ _ _ _ _ _ Hop2 Happly)
    as (_ & Hfields & Hregrids & _ & _ & Harrays).
  destruct Hop1 as [HR' HF1' HF2' Hf' HA1' HA2' Hb'].
  constructor; simpl; try done.
  - by rewrite Hregrids.
  - by rewrite Hfields.
  - by rewrite Hfields.
  - rewrite Harrays; [done|lia|lia].
  - rewrite Harrays; [done|lia|lia].
Qed.

Lemma length_indices sh : length (np.indices sh) = np.size sh.
Proof. by rewrite <- (length_fmap (np.offset sh)), indices_offsets, length_seq. Qed.

(** X13. A zero-dimensional input is accepted by every operator: its one
    element is written to every cell of the source buffer. *)
Theorem apply_scalar_fills (s : State val W) r (R : Regrid W) F1 F2
    (A1 A2 indata : np.ndarray val) :
  operator_at s r R F1 F2 A1 A2 ->
  np.shape indata = [] ->
  arrays (esmf_regrid_apply E r indata s).2 !! field_data F1
  = Some (np.mk_ndarray (np.shape A1) (np.f_contiguous A1)
            (replicate (np.size (np.shape A1)) (np.data indata !!! 0))).
Proof.
  intros Hop Hsh. rewrite (apply_run _ _ _ _ _ _ _ indata Hop).
  assert (Hfill : assigned A1 indata
                  = np.mk_ndarray (np.shape A1) (np.f_contiguous A1)
                      (replicate (np.size (np.shape A1)) (np.data indata !!! 0))).
  { unfold assigned, np.broadcast_to, np.align. rewrite Hsh. simpl.
    f_equal. rewrite <- length_indices.
    induction (np.indices (np.shape A1)) as [|idx l IH]; [done|].
    simpl in *. by f_equal. }
  rewrite Hsh. simpl.
  destruct (field_regrid E _ r (regrid_srcfield R) (regrid_dstfield R))
    as [rc|out]; simpl.
  - by rewrite lookup_insert_eq, Hfill.
  - rewrite lookup_alter_ne by (symmetry; apply Hop).
    by rewrite lookup_insert_eq, Hfill.
Qed.

(** X14. A weight-file name serves once.  After a build that was given a
    file name has succeeded, every further build given the same name fails
    on the weight-file assertion (when its method is valid and its grids
    have the corners it needs), and the file keeps what the first build
    wrote. *)
Theorem weight_file_name_serves_once (s : State val W) sg dg SG DG method path
    extra_dims r s1 sg' dg' SG' DG' method' extra_dims' :
  grids s !! sg = Some SG -> grids s !! dg = Some DG ->
  esmf_regrid_build E sg dg method (Some path) extra_dims s = (Ok r, s1) ->
  grids s1 !! sg' = Some SG' -> grids s1 !! dg' = Some DG' ->
  method' ∈ keys method_dict ->
  lacks_corners method' SG' = false -> lacks_corners method' DG' = false ->
  exists s2,
    esmf_regrid_build E sg' dg' method' (Some path) extra_dims' s1
    = (Raise (AssertionError weight_file_msg), s2)
    /\ files s2 = files s1
    /\ weight_computations s2 = weight_computations s1.
Proof.
  intros HSG HDG Hrun HSG' HDG' Hm Hc1 Hc2.
  destruct (build_operator_at _ _ _ _ _ _ _ _ _ _ HSG HDG Hrun)
    as (rm & _ & _ & -> & _ & _ & _).
  rewrite (build_run _ _ _ _ _ _ _ _ HSG' HDG'), Hc1, Hc2.
  destruct (dict_get method_dict method') eqn:Hd.
  2:{ apply dict_get_None in Hd. done. }
  cbv zeta. simpl file_taken. rewrite lookup_insert_eq. simpl.
  eexists. split; [reflexivity|]. split; [reflexivity|].
  unfold weight_computations. simpl.
  by rewrite !List.filter_app, !length_app, !Nat.add_0_r.
Qed.

(** X15. Grids outlive the operators built on them.  After
    [esmf_regrid_build] has succeeded, [esmf_regrid_finalize] on the
    operator it returned completes and leaves the grids as they were, and
    a further build on the same grids with the same method succeeds when
    it is given no file name or one that is free after the first build.
    Given the first build's own file name again it fails on the
    weight-file assertion: finalizing does not remove the file. *)
Theorem build_again_after_finalize (s : State val W) sg dg SG DG method
    filename extra_dims r s1 :
  grids s !! sg = Some SG -> grids s !! dg = Some DG ->
  esmf_regrid_build E sg dg method filename extra_dims s = (Ok r, s1) ->
  exists s2,
    esmf_regrid_finalize r s1 = (Ok tt, s2)
    /\ grids s2 = grids s
    /\ files s2 = files s1
    /\ (forall filename' extra_dims',
          file_taken filename' s1 = false ->
          exists r' s3,
            esmf_regrid_build E sg dg method filename' extra_dims' s2
            = (Ok r', s3))
    /\ (forall path extra_dims',
          filename = Some path ->
          exists s3,
            esmf_regrid_build E sg dg method (Some path) extra_dims' s2
            = (Raise (AssertionError weight_file_msg), s3)).
Proof.
  intros HSG HDG Hrun.
  destruct (build_operator_at _ _ _ _ _ _ _ _ _ _ HSG HDG Hrun)
    as (rm & Hrm & -> & -> & _ & Hc1 & Hc2).
  destruct (built_operator_at s sg dg SG DG rm filename extra_dims)
    as (R & F1 & F2 & A1 & A2 & Hop & _).
  rewrite (finalize_store_run _ _ _ _ _ _ _ Hop).
  eexists. split; [reflexivity|]. split; [reflexivity|].
  split; [reflexivity|].
  set (s1 := with_regrid E rm filename _ _ _) in *.
  assert (HSG' : grids (finalized_store (S (S (S (S (next s))))) R F1 F2 s1)
                 !! sg = Some SG) by done.
  assert (HDG' : grids (finalized_store (S (S (S (S (next s))))) R F1 F2 s1)
                 !! dg = Some DG) by done.
  split.
  - intros filename' extra_dims' Hfree.
    rewrite (build_run _ _ _ _ _ _ _ _ HSG' HDG'), Hrm, Hc1, Hc2.
    cbv zeta.
    assert (Hfree' : file_taken filename'
                       (finalized_store (S (S (S (S (next s))))) R F1 F2 s1)
                     = false) by (destruct filename'; exact Hfree).
    rewrite Hfree'. eauto.
  - intros path extra_dims' ->.
    rewrite (build_run _ _ _ _ _ _ _ _ HSG' HDG'), Hrm, Hc1, Hc2.
    cbv zeta.
    assert (Htaken : file_taken (Some path)
                       (finalized_store (S (S (S (S (next s))))) R F1 F2 s1)
                     = true).
    { unfold s1. simpl. rewrite lookup_insert_eq. reflexivity. }
    rewrite Htaken. eauto.
Qed.

End Properties.

(** ** Concrete runs *)

Lemma copy_engine_serves_live : serves_live Demo.copy_engine.
Proof.
  intros m r src dst R F1 F2 HR HF1 HF2 Hlive. simpl.
  unfold Demo.handles_live. rewrite HR, HF1, HF2.
  unfold none_finalized in Hlive.
  destruct (field_finalized F1), (field_finalized F2), (regrid_finalized R);
    try done; simpl; by eexists.
Qed.

Lemma demo_coords_allocated : coords_allocated Demo.s_grid45 Demo.grid45.
Proof.
  intros staggerloc a0 a1 Hc. unfold Demo.grid45 in Hc. simpl in Hc.
  apply lookup_singleton_Some in Hc as [<- [= <- <-]].
  eexists _, _. repeat split; vm_compute; reflexivity.
Qed.

(** On an operator finalized after use, a further call still overwrites the
    source buffer (object 3) before the engine refuses the handles. *)
Lemma apply_after_finalize_witness :
  operator_at Demo.s_finalized 7 (Demo.op_regrid true) (Demo.op_src true)
              (Demo.op_dst true) Demo.data1 Demo.data1
  /\ all_finalized (Demo.op_regrid true) (Demo.op_src true) (Demo.op_dst true) = true
  /\ arrays (esmf_regrid_apply Demo.copy_engine 7 Demo.data2 Demo.s_finalized).2 !! 3
     = Some (assigned Demo.data1 Demo.data2).
Proof.
  assert (Hop : operator_at Demo.s_finalized 7 (Demo.op_regrid true)
                  (Demo.op_src true) (Demo.op_dst true) Demo.data1 Demo.data1)
    by (constructor; (vm_compute; reflexivity) || (simpl; lia)).
  split; [exact Hop|]. split; [reflexivity|].
  destruct (apply_after_finalize Demo.copy_engine Demo.s_finalized 7
              (Demo.op_regrid true) (Demo.op_src true) (Demo.op_dst true)
              Demo.data1 Demo.data1 Demo.data2 Hop eq_refl) as [Hwrite _].
  apply Hwrite. reflexivity.
Defined.

(** With extra dimensions [3, 2] on a 2 x 2 grid, an input of shape
    [(3, 2)] is accepted and yields an output of shape [(2, 2, 3, 2)]. *)
Lemma apply_shape_contract_witness :
  serves_live Demo.copy_engine
  /\ live_operator Demo.s_built32 7 [2; 2; 3; 2] [2; 2; 3; 2]
  /\ exists o A s',
       esmf_regrid_apply Demo.copy_engine 7 Demo.row Demo.s_built32 = (Ok o, s')
       /\ arrays s' !! o = Some A /\ np.shape A = [2; 2; 3; 2]
       /\ live_operator s' 7 [2; 2; 3; 2] [2; 2; 3; 2].
Proof.
  destruct (apply_shape_contract Demo.copy_engine copy_engine_serves_live)
    as (Hbuild & Happly & _).
  assert (Hlive : live_operator Demo.s_built32 7 [2; 2; 3; 2] [2; 2; 3; 2]).
  { apply (Hbuild Demo.s_grid 0 0 Demo.grid22 Demo.grid22 "bilinear" None
                  (Some [3; 2]) 7 Demo.s_built32); vm_compute; reflexivity. }
  split; [exact copy_engine_serves_live|]. split; [exact Hlive|].
  exact (Happly Demo.s_built32 7 [2; 2; 3; 2] [2; 2; 3; 2] Demo.row Hlive).
Defined.

(** The array returned by the first call is the destination buffer,
    object 5. *)
Lemma apply_returns_destination_buffer_witness :
  operator_at Demo.s_built 7 (Demo.op_regrid false) (Demo.op_src false)
              (Demo.op_dst false) Demo.zeros22 Demo.zeros22
  /\ esmf_regrid_apply Demo.copy_engine 7 Demo.data1 Demo.s_built
     = (Ok 5, Demo.s_used)
  /\ 5 = field_data (Demo.op_dst false)
  /\ exists s2, esmf_regrid_finalize 7 Demo.s_used = (Ok tt, s2)
                /\ arrays s2 = arrays Demo.s_used.
Proof.
  assert (Hop : operator_at Demo.s_built 7 (Demo.op_regrid false)
                  (Demo.op_src false) (Demo.op_dst false)
                  Demo.zeros22 Demo.zeros22)
    by (constructor; (vm_compute; reflexivity) || (simpl; lia)).
  assert (Hrun : esmf_regrid_apply Demo.copy_engine 7 Demo.data1 Demo.s_built
                 = (Ok 5, Demo.s_used)) by (vm_compute; reflexivity).
  split; [exact Hop|]. split; [exact Hrun|].
  destruct (apply_returns_destination_buffer Demo.copy_engine Demo.s_built 7
              (Demo.op_regrid false) (Demo.op_src false) (Demo.op_dst false)
              Demo.zeros22 Demo.zeros22 Demo.data1 5 Demo.s_used Hop Hrun)
    as (Ho & _ & Hfin).
  split; [exact Ho|exact Hfin].
Defined.

(** A valid build onto an existing file stops at the assertion, the two
    fields created, no weights computed and the file as it was. *)
Lemma existing_weight_file_rejected_witness :
  is_Some (files Demo.s_file !! "weights.nc")
  /\ exists s',
       esmf_regrid_build Demo.copy_engine 0 0 "bilinear" (Some "weights.nc")
                         None Demo.s_file
       = (Raise (AssertionError weight_file_msg), s')
       /\ files s' = files Demo.s_file
       /\ regrids s' = regrids Demo.s_file
       /\ weight_computations s' = weight_computations Demo.s_file
       /\ s' = with_fields Demo.copy_engine 0 0 Demo.grid22 Demo.grid22 None
                           Demo.s_file.
Proof.
  assert (Hfile : is_Some (files Demo.s_file !! "weights.nc"))
    by (vm_compute; eauto).
  split; [exact Hfile|].
  destruct (existing_weight_file_rejected Demo.copy_engine Demo.s_file 0 0
              "bilinear" "weights.nc" None Hfile) as [Hassert _].
  apply Hassert; try (vm_compute; reflexivity).
  unfold keys, method_dict. simpl. left.
Defined.

(** An unknown method is refused; a known one goes through to the
    operator. *)
Lemma invalid_method_rejected_witness :
  ("not_a_method" ∉ keys method_dict)
  /\ esmf_regrid_build Demo.copy_engine 0 0 "not_a_method" None None Demo.s_grid
     = (Raise (ValueError invalid_method_msg), Demo.s_grid)
  /\ ("bilinear" ∈ keys method_dict)
  /\ grids Demo.s_grid !! 0 = Some Demo.grid22
  /\ exists rm,
       dict_get method_dict "bilinear" = Some rm
       /\ esmf_regrid_build Demo.copy_engine 0 0 "bilinear" None None Demo.s_grid
          = (Ok 7,
             with_regrid Demo.copy_engine rm None 4 6
               (with_fields Demo.copy_engine 0 0 Demo.grid22 Demo.grid22 None
                            Demo.s_grid)).
Proof.
  assert (Hm : "not_a_method" ∉ keys method_dict)
    by (apply dict_get_None; reflexivity).
  assert (Hb : "bilinear" ∈ keys method_dict)
    by (unfold keys, method_dict; simpl; left).
  assert (Hg : grids Demo.s_grid !! 0 = Some Demo.grid22)
    by (vm_compute; reflexivity).
  destruct (invalid_method_rejected Demo.copy_engine)
    as (Hreject & _ & _ & _ & Haccept).
  split; [exact Hm|]. split; [apply (Hreject "not_a_method" Hm)|].
  split; [exact Hb|]. split; [exact Hg|].
  destruct (Haccept "bilinear" Hb 0 0 Demo.grid22 Demo.grid22 None None
              Demo.s_grid Hg Hg) as [_ Hok].
  apply Hok; reflexivity.
Defined.

(** A grid without corners cannot be the source of a conservative
    operator. *)
Lemma conservative_needs_corners_witness :
  grids Demo.s_grid !! 0 = Some Demo.grid22
  /\ grid_has_corners Demo.grid22 = false
  /\ esmf_regrid_build Demo.copy_engine 0 0 "conservative" None None Demo.s_grid
     = (Raise (ValueError source_corners_msg), Demo.s_grid)
  /\ grids Demo.s_corners !! 0 = Some Demo.grid45_corners
  /\ exists r s',
       esmf_regrid_build Demo.copy_engine 0 0 "conservative" None None
                         Demo.s_corners = (Ok r, s').
Proof.
  assert (Hg : grids Demo.s_grid !! 0 = Some Demo.grid22)
    by (vm_compute; reflexivity).
  assert (Hc : grids Demo.s_corners !! 0 = Some Demo.grid45_corners)
    by (vm_compute; reflexivity).
  split; [exact Hg|]. split; [reflexivity|]. split.
  - destruct (conservative_needs_corners Demo.copy_engine Demo.s_grid 0 0
                Demo.grid22 Demo.grid22 None None Hg Hg) as [Hsrc _].
    apply Hsrc. reflexivity.
  - split; [exact Hc|].
    destruct (conservative_needs_corners Demo.copy_engine Demo.s_corners 0 0
                Demo.grid45_corners Demo.grid45_corners None None Hc Hc)
      as (_ & _ & Hboth & _).
    apply Hboth; reflexivity.
Defined.

(** A 4 x 5 grid takes corners of shape [(5, 6)] and refuses [(5, 5)]. *)
Lemma add_corner_shape_contract_witness :
  grids Demo.s_grid45 !! 0 = Some Demo.grid45
  /\ grid_max_index Demo.grid45 = [4; 5]
  /\ coords_allocated Demo.s_grid45 Demo.grid45
  /\ (exists s', add_corner Demo.copy_engine 0 Demo.corner56 Demo.corner56
                            Demo.s_grid45 = (Ok tt, s'))
  /\ (exists msg s', add_corner Demo.copy_engine 0 Demo.corner55 Demo.corner55
                                Demo.s_grid45 = (Raise (AssertionError msg), s')).
Proof.
  assert (Hg : grids Demo.s_grid45 !! 0 = Some Demo.grid45)
    by (vm_compute; reflexivity).
  split; [exact Hg|]. split; [reflexivity|].
  split; [exact demo_coords_allocated|]. split.
  - destruct (add_corner_shape_contract Demo.copy_engine Demo.s_grid45 0
                Demo.grid45 4 5 Demo.corner56 Demo.corner56 Hg eq_refl
                demo_coords_allocated) as [[_ Hok] _].
    apply Hok. repeat split; reflexivity.
  - destruct (add_corner_shape_contract Demo.copy_engine Demo.s_grid45 0
                Demo.grid45 4 5 Demo.corner55 Demo.corner55 Hg eq_refl
                demo_coords_allocated) as [_ Hfail].
    apply Hfail. intros (_ & _ & _ & Heq). discriminate Heq.
Defined.

Lemma esmf_grid_shape_contract_witness :
  np.ndim Demo.lon22 = 2 /\ np.ndim Demo.lat22 = 2
  /\ np.shape Demo.lon22 = np.shape Demo.lat22
  /\ exists g s' G a0 a1,
       esmf_grid Demo.copy_engine Demo.lon22 Demo.lat22 Demo.empty = (Ok g, s')
       /\ grids s' !! g = Some G
       /\ grid_max_index G = [2; 2]
       /\ grid_coords G !! StaggerLoc.CENTER = Some (a0, a1)
       /\ arrays s' !! a0
          = Some (np.mk_ndarray [2; 2] true
                    (np.broadcast_to Demo.lon22 [2; 2]))
       /\ arrays s' !! a1
          = Some (np.mk_ndarray [2; 2] true
                    (np.broadcast_to Demo.lat22 [2; 2])).
Proof.
  split; [reflexivity|]. split; [reflexivity|]. split; [reflexivity|].
  destruct (esmf_grid_shape_contract Demo.copy_engine Demo.lon22 Demo.lat22
              Demo.empty) as (Hok & _ & _).
  exact (Hok eq_refl eq_refl eq_refl).
Defined.

(** Corners of shape [(5, 5)] leave the 4 x 5 grid without corners. *)
Lemma add_corner_atomic_witness :
  grids Demo.s_grid45 !! 0 = Some Demo.grid45
  /\ np.shape Demo.corner55 <> S <$> grid_max_index Demo.grid45
  /\ exists msg s',
       add_corner Demo.copy_engine 0 Demo.corner55 Demo.corner55 Demo.s_grid45
       = (Raise (AssertionError msg), s')
       /\ s' = log_warnings (contiguity_warnings [Demo.corner55; Demo.corner55])
                            Demo.s_grid45
       /\ grids s' = grids Demo.s_grid45 /\ arrays s' = arrays Demo.s_grid45
       /\ calls s' = calls Demo.s_grid45
       /\ grids s' !! 0 = Some Demo.grid45.
Proof.
  assert (Hg : grids Demo.s_grid45 !! 0 = Some Demo.grid45)
    by (vm_compute; reflexivity).
  assert (Hbad : np.shape Demo.corner55 <> S <$> grid_max_index Demo.grid45)
    by (simpl; discriminate).
  split; [exact Hg|]. split; [exact Hbad|].
  apply (add_corner_atomic Demo.copy_engine Demo.s_grid45 0 Demo.grid45
           Demo.corner55 Demo.corner55 Hg).
  right; right. exact Hbad.
Defined.

(** After [esmf_regrid_finalize] has completed, a further call does not
    fail fast: with a 2 x 2 input the source buffer is overwritten and the
    native routine entered before anything is raised. *)
Lemma apply_after_finalize_not_fail_fast :
  esmf_regrid_finalize 7 Demo.s_used = (Ok tt, Demo.s_finalized)
  /\ ~ fails_fast Demo.copy_engine 7 Demo.data2 Demo.s_finalized.
Proof.
  split; [vm_compute; reflexivity|].
  intros (e & s' & Hrun & Harr & _).
  assert (Hs : s' = (esmf_regrid_apply Demo.copy_engine 7 Demo.data2
                                       Demo.s_finalized).2)
    by (by rewrite Hrun).
  subst s'. apply (f_equal (fun m => m !! 3)) in Harr.
  vm_compute in Harr. discriminate Harr.
Qed.

(** With extra dimensions [3, 2] on a 2 x 2 grid the call accepts an input
    of shape [(3, 2)], which is not [(2, 2, 3, 2)]. *)
Lemma apply_accepts_other_shapes :
  ~ accepts_exactly Demo.copy_engine 7 [2; 2; 3; 2] Demo.s_built32.
Proof.
  intros Hexact.
  specialize (Hexact Demo.row 5
                (esmf_regrid_apply Demo.copy_engine 7 Demo.row Demo.s_built32).2).
  assert (Hshape : np.shape Demo.row = [2; 2; 3; 2])
    by (apply Hexact; vm_compute; reflexivity).
  discriminate Hshape.
Qed.

(** The array returned by a first call holds, after a second call, the
    second call's result. *)
Lemma apply_output_overwritten :
  ~ output_survives Demo.copy_engine 7 Demo.data1 Demo.data2 Demo.s_built.
Proof.
  intros Hsurvive.
  specialize (Hsurvive 5 Demo.s_used (Ok 5)
                (esmf_regrid_apply Demo.copy_engine 7 Demo.data2 Demo.s_used).2).
  assert (Hsame :
    arrays (esmf_regrid_apply Demo.copy_engine 7 Demo.data2 Demo.s_used).2 !! 5
    = arrays Demo.s_used !! 5)
    by (apply Hsurvive; vm_compute; reflexivity).
  vm_compute in Hsame. discriminate Hsame.
Qed.

(** *** Runs of the further properties *)

Lemma esmf_grid_creates_only_witness :
  np.ndim Demo.lon22 = 2 /\ np.shape Demo.lon22 = np.shape Demo.lat22
  /\ exists s',
       esmf_grid Demo.copy_engine Demo.lon22 Demo.lat22 Demo.s_built
       = (Ok 8, s')
       /\ grids s' !! 8 = Some (mk_Grid [2; 2] false {[0 := (9, 10)]})
       /\ (forall g, g <> 8 -> grids s' !! g = grids Demo.s_built !! g)
       /\ (forall a, a < 8 -> arrays s' !! a = arrays Demo.s_built !! a)
       /\ fields s' = fields Demo.s_built /\ regrids s' = regrids Demo.s_built
       /\ files s' = files Demo.s_built.
Proof.
  split; [reflexivity|]. split; [reflexivity|].
  exact (esmf_grid_creates_only Demo.copy_engine Demo.lon22 Demo.lat22
           Demo.s_built eq_refl eq_refl).
Defined.

Lemma add_corner_attaches_witness :
  grids Demo.s_grid45 !! 0 = Some Demo.grid45
  /\ grid_coords Demo.grid45 !! StaggerLoc.CORNER = None
  /\ exists s' G',
       add_corner Demo.copy_engine 0 Demo.corner56 Demo.corner56 Demo.s_grid45
       = (Ok tt, s')
       /\ grids s' !! 0 = Some G' /\ grid_has_corners G' = true.
Proof.
  assert (Hg : grids Demo.s_grid45 !! 0 = Some Demo.grid45)
    by (vm_compute; reflexivity).
  assert (Hc : grid_coords Demo.grid45 !! StaggerLoc.CORNER = None)
    by (vm_compute; reflexivity).
  split; [exact Hg|]. split; [exact Hc|].
  destruct (add_corner_attaches Demo.copy_engine Demo.s_grid45 0 Demo.grid45
              Demo.corner56 Demo.corner56 Hg Hc eq_refl eq_refl eq_refl)
    as (s' & G' & Hrun & HG' & Hhas & _).
  exists s', G'. by repeat split.
Defined.

Lemma corners_enable_conservative_witness :
  np.ndim Demo.lon45 = 2
  /\ np.shape Demo.corner56 = S <$> np.shape Demo.lon45
  /\ exists s1 s2,
       esmf_grid Demo.copy_engine Demo.lon45 Demo.lon45 Demo.empty = (Ok 0, s1)
       /\ esmf_regrid_build Demo.copy_engine 0 0 "conservative" None None s1
          = (Raise (ValueError source_corners_msg), s1)
       /\ add_corner Demo.copy_engine 0 Demo.corner56 Demo.corner56 s1 = (Ok tt, s2)
       /\ (file_taken None Demo.empty = false ->
           exists r s3,
             esmf_regrid_build Demo.copy_engine 0 0 "conservative" None None s2
             = (Ok r, s3)).
Proof.
  split; [reflexivity|]. split; [reflexivity|].
  exact (corners_enable_conservative Demo.copy_engine Demo.lon45 Demo.lon45
           Demo.corner56 Demo.corner56 Demo.empty None None
           eq_refl eq_refl eq_refl eq_refl).
Defined.

Lemma finalize_completes_witness :
  operator_at Demo.s_used 7 (Demo.op_regrid false) (Demo.op_src false)
              (Demo.op_dst false) Demo.data1 Demo.data1
  /\ exists s',
       esmf_regrid_finalize 7 Demo.s_used = (Ok tt, s')
       /\ regrids s' !! 7 = Some (Demo.op_regrid true)
       /\ arrays s' = arrays Demo.s_used.
Proof.
  assert (Hop : operator_at Demo.s_used 7 (Demo.op_regrid false)
                  (Demo.op_src false) (Demo.op_dst false) Demo.data1 Demo.data1)
    by (constructor; (vm_compute; reflexivity) || (simpl; lia)).
  split; [exact Hop|].
  destruct (finalize_completes Demo.s_used 7 _ _ _ _ _ Hop)
    as (s' & Hrun & HR & _ & _ & Harr & _).
  exists s'. by repeat split.
Defined.

Lemma finalize_idempotent_witness :
  operator_at Demo.s_used 7 (Demo.op_regrid false) (Demo.op_src false)
              (Demo.op_dst false) Demo.data1 Demo.data1
  /\ esmf_regrid_finalize 7 Demo.s_used = (Ok tt, Demo.s_finalized)
  /\ esmf_regrid_finalize 7 Demo.s_finalized = (Ok tt, Demo.s_finalized).
Proof.
  assert (Hop : operator_at Demo.s_used 7 (Demo.op_regrid false)
                  (Demo.op_src false) (Demo.op_dst false) Demo.data1 Demo.data1)
    by (constructor; (vm_compute; reflexivity) || (simpl; lia)).
  assert (Hfin : esmf_regrid_finalize 7 Demo.s_used = (Ok tt, Demo.s_finalized))
    by (vm_compute; reflexivity).
  split; [exact Hop|]. split; [exact Hfin|].
  exact (finalize_idempotent Demo.s_used 7 _ _ _ _ _ Demo.s_finalized Hop Hfin).
Defined.

Lemma apply_frame_witness :
  operator_at Demo.s_built 7 (Demo.op_regrid false) (Demo.op_src false)
              (Demo.op_dst false) Demo.zeros22 Demo.zeros22
  /\ esmf_regrid_apply Demo.copy_engine 7 Demo.data1 Demo.s_built
     = (Ok 5, Demo.s_used)
  /\ grids Demo.s_used = grids Demo.s_built
  /\ arrays Demo.s_used !! 1 = arrays Demo.s_built !! 1.
Proof.
  assert (Hop : operator_at Demo.s_built 7 (Demo.op_regrid false)
                  (Demo.op_src false) (Demo.op_dst false)
                  Demo.zeros22 Demo.zeros22)
    by (constructor; (vm_compute; reflexivity) || (simpl; lia)).
  assert (Hrun : esmf_regrid_apply Demo.copy_engine 7 Demo.data1 Demo.s_built
                 = (Ok 5, Demo.s_used)) by (vm_compute; reflexivity).
  split; [exact Hop|]. split; [exact Hrun|].
  destruct (apply_frame Demo.copy_engine Demo.s_built 7 _ _ _ _ _ Demo.data1
              _ _ Hop Hrun) as (Hg & _ & _ & _ & _ & Harr).
  split; [exact Hg|]. apply Harr; simpl; lia.
Defined.

Lemma apply_copies_input_witness :
  operator_at Demo.s_built 7 (Demo.op_regrid false) (Demo.op_src false)
              (Demo.op_dst false) Demo.zeros22 Demo.zeros22
  /\ np.shape Demo.data1 = np.shape Demo.zeros22
  /\ length (np.data Demo.data1) = np.size (np.shape Demo.data1)
  /\ arrays (esmf_regrid_apply Demo.copy_engine 7 Demo.data1 Demo.s_built).2 !! 3
     = Some Demo.data1.
Proof.
  assert (Hop : operator_at Demo.s_built 7 (Demo.op_regrid false)
                  (Demo.op_src false) (Demo.op_dst false)
                  Demo.zeros22 Demo.zeros22)
    by (constructor; (vm_compute; reflexivity) || (simpl; lia)).
  split; [exact Hop|]. split; [reflexivity|]. split; [reflexivity|].
  exact (apply_copies_input Demo.copy_engine Demo.s_built 7 _ _ _ _ _
           Demo.data1 Hop eq_refl eq_refl).
Defined.

Lemma build_borrows_grids_witness :
  grids Demo.s_grid !! 0 = Some Demo.grid22
  /\ esmf_regrid_build Demo.copy_engine 0 0 "bilinear" None None Demo.s_grid
     = (Ok 7, Demo.s_built)
  /\ grids Demo.s_built = grids Demo.s_grid
  /\ arrays Demo.s_built !! 1 = arrays Demo.s_grid !! 1.
Proof.
  assert (Hg : grids Demo.s_grid !! 0 = Some Demo.grid22)
    by (vm_compute; reflexivity).
  assert (Hrun : esmf_regrid_build Demo.copy_engine 0 0 "bilinear" None None
                   Demo.s_grid = (Ok 7, Demo.s_built))
    by (vm_compute; reflexivity).
  split; [exact Hg|]. split; [exact Hrun|].
  destruct (build_borrows_grids Demo.copy_engine Demo.s_grid 0 0 _ _ _ _ _ _ _
              Hg Hg Hrun) as (Hgrids & Harr & _).
  split; [exact Hgrids|]. apply Harr. vm_compute. lia.
Defined.

Lemma build_makes_operator_witness :
  grids Demo.s_grid !! 0 = Some Demo.grid22
  /\ esmf_regrid_build Demo.copy_engine 0 0 "bilinear" None None Demo.s_grid
     = (Ok 7, Demo.s_built)
  /\ exists rm R F1 F2 A1 A2,
       dict_get method_dict "bilinear" = Some rm
       /\ operator_at Demo.s_built 7 R F1 F2 A1 A2
       /\ none_finalized R F1 F2 = true
       /\ field_grid F1 = 0 /\ field_grid F2 = 0.
Proof.
  assert (Hg : grids Demo.s_grid !! 0 = Some Demo.grid22)
    by (vm_compute; reflexivity).
  assert (Hrun : esmf_regrid_build Demo.copy_engine 0 0 "bilinear" None None
                   Demo.s_grid = (Ok 7, Demo.s_built))
    by (vm_compute; reflexivity).
  split; [exact Hg|]. split; [exact Hrun|].
  destruct (build_makes_operator Demo.copy_engine Demo.s_grid 0 0 _ _ _ _ _ _ _
              Hg Hg Hrun)
    as (rm & R & F1 & F2 & A1 & A2 & Hrm & Hop & Hlive & H1 & H2 & _).
  exists rm, R, F1, F2, A1, A2.
  split; [exact Hrm|]. split; [exact Hop|]. split; [exact Hlive|].
  split; assumption.
Defined.

Lemma method_names_distinct_witness :
  dict_get method_dict "nearest_s2d" = Some RegridMethod.NEAREST_STOD
  /\ "nearest_s2d" = "nearest_s2d".
Proof.
  split; [reflexivity|].
  exact (method_names_distinct "nearest_s2d" "nearest_s2d"
           RegridMethod.NEAREST_STOD eq_refl eq_refl).
Defined.

Lemma operators_independent_witness :
  operator_at Demo.s_built 7 (Demo.op_regrid false) (Demo.op_src false)
              (Demo.op_dst false) Demo.zeros22 Demo.zeros22
  /\ 7 < next Demo.s_built
  /\ esmf_regrid_build Demo.copy_engine 0 0 "patch" None None Demo.s_built
     = (Ok 12, Demo.s_built_twice)
  /\ 12 <> 7
  /\ operator_at Demo.s_built_twice 7 (Demo.op_regrid false)
                 (Demo.op_src false) (Demo.op_dst false)
                 Demo.zeros22 Demo.zeros22
  /\ forall indata,
       operator_at
         (esmf_regrid_apply Demo.copy_engine 12 indata Demo.s_built_twice).2
         7 (Demo.op_regrid false) (Demo.op_src false) (Demo.op_dst false)
         Demo.zeros22 Demo.zeros22.
Proof.
  assert (Hop : operator_at Demo.s_built 7 (Demo.op_regrid false)
                  (Demo.op_src false) (Demo.op_dst false)
                  Demo.zeros22 Demo.zeros22)
    by (constructor; (vm_compute; reflexivity) || (simpl; lia)).
  assert (Hg : grids Demo.s_built !! 0 = Some Demo.grid22)
    by (vm_compute; reflexivity).
  assert (Hrun : esmf_regrid_build Demo.copy_engine 0 0 "patch" None None
                   Demo.s_built = (Ok 12, Demo.s_built_twice))
    by (vm_compute; reflexivity).
  split; [exact Hop|]. split; [vm_compute; lia|]. split; [exact Hrun|].
  apply (operators_independent Demo.copy_engine Demo.s_built 7 _ _ _ _ _
           0 0 Demo.grid22 Demo.grid22 "patch" None None 12
           Demo.s_built_twice Hop); try (vm_compute; lia); assumption.
Defined.

Lemma apply_scalar_fills_witness :
  operator_at Demo.s_built 7 (Demo.op_regrid false) (Demo.op_src false)
              (Demo.op_dst false) Demo.zeros22 Demo.zeros22
  /\ np.shape Demo.scalar = []
  /\ arrays (esmf_regrid_apply Demo.copy_engine 7 Demo.scalar Demo.s_built).2 !! 3
     = Some (Demo.arr [2; 2] true [9; 9; 9; 9]%Z).
Proof.
  assert (Hop : operator_at Demo.s_built 7 (Demo.op_regrid false)
                  (Demo.op_src false) (Demo.op_dst false)
                  Demo.zeros22 Demo.zeros22)
    by (constructor; (vm_compute; reflexivity) || (simpl; lia)).
  split; [exact Hop|]. split; [reflexivity|].
  exact (apply_scalar_fills Demo.copy_engine Demo.s_built 7 _ _ _ _ _
           Demo.scalar Hop eq_refl).
Defined.

Lemma weight_file_name_serves_once_witness :
  grids Demo.s_grid !! 0 = Some Demo.grid22
  /\ esmf_regrid_build Demo.copy_engine 0 0 "bilinear" (Some "weights.nc") None
                       Demo.s_grid = (Ok 7, Demo.s_built_file)
  /\ exists s2,
       esmf_regrid_build Demo.copy_engine 0 0 "patch" (Some "weights.nc") None
                         Demo.s_built_file
       = (Raise (AssertionError weight_file_msg), s2)
       /\ files s2 = files Demo.s_built_file
       /\ weight_computations s2 = weight_computations Demo.s_built_file.
Proof.
  assert (Hg : grids Demo.s_grid !! 0 = Some Demo.grid22)
    by (vm_compute; reflexivity).
  assert (Hrun : esmf_regrid_build Demo.copy_engine 0 0 "bilinear"
                   (Some "weights.nc") None Demo.s_grid
                 = (Ok 7, Demo.s_built_file)) by (vm_compute; reflexivity).
  assert (Hg1 : grids Demo.s_built_file !! 0 = Some Demo.grid22)
    by (vm_compute; reflexivity).
  split; [exact Hg|]. split; [exact Hrun|].
  apply (weight_file_name_serves_once Demo.copy_engine Demo.s_grid 0 0
           Demo.grid22 Demo.grid22 "bilinear" "weights.nc" None 7
           Demo.s_built_file 0 0 Demo.grid22 Demo.grid22 "patch" None
           Hg Hg Hrun Hg1 Hg1); try reflexivity.
  unfold keys, method_dict. simpl. right. right. left.
Defined.

Lemma build_again_after_finalize_witness :
  grids Demo.s_grid !! 0 = Some Demo.grid22
  /\ esmf_regrid_build Demo.copy_engine 0 0 "bilinear" (Some "weights.nc") None
                       Demo.s_grid = (Ok 7, Demo.s_built_file)
  /\ exists s2,
       esmf_regrid_finalize 7 Demo.s_built_file = (Ok tt, s2)
       /\ grids s2 = grids Demo.s_grid
       /\ files s2 = files Demo.s_built_file
       /\ (exists r' s3,
             esmf_regrid_build Demo.copy_engine 0 0 "bilinear" None None s2
             = (Ok r', s3))
       /\ (exists s3,
             esmf_regrid_build Demo.copy_engine 0 0 "bilinear"
                               (Some "weights.nc") None s2
             = (Raise (AssertionError weight_file_msg), s3)).
Proof.
  assert (Hg : grids Demo.s_grid !! 0 = Some Demo.grid22)
    by (vm_compute; reflexivity).
  assert (Hrun : esmf_regrid_build Demo.copy_engine 0 0 "bilinear"
                   (Some "weights.nc") None Demo.s_grid
                 = (Ok 7, Demo.s_built_file)) by (vm_compute; reflexivity).
  split; [exact Hg|]. split; [exact Hrun|].
  destruct (build_again_after_finalize Demo.copy_engine Demo.s_grid 0 0
              Demo.grid22 Demo.grid22 "bilinear" (Some "weights.nc") None 7
              Demo.s_built_file Hg Hg Hrun)
    as (s2 & Hfin & Hgrids & Hfiles & Hagain & Hsame).
  exists s2. split; [exact Hfin|]. split; [exact Hgrids|].
  split; [exact Hfiles|]. split.
  - apply (Hagain None None). reflexivity.
  - apply (Hsame "weights.nc" None). reflexivity.
Defined.
